(** * plot_anim: a one-dimensional animation adapter over matplotlib

    Shallow embedding of [animation.py].  The module has one function,
    [plot_anim], which drives numpy, matplotlib.pyplot, matplotlib.animation
    and IPython.display.  The function itself is embedded once, over an
    abstract [Backend] (the interface of those libraries as the function
    uses it), in a state-and-exception monad that has no handler, as the
    source has no [try].  A reference backend [py] models the libraries'
    documented behaviour and makes the function executable.

    Python floats are idealised as exact rationals ([Q]); arrays of floats
    are lists. *)

From Stdlib Require Import ZArith QArith Qabs List Ascii String Bool Lia Lqa Field.
Import ListNotations.
Open Scope Z_scope.

(** ** Python values *)

Definition num := Q.
Definition ndarray := list num.

(** A raised Python exception: its class and its message. *)
Record exn := PyErr { exn_type : string; exn_msg : string }.

(** What one [next()] on a generator object gives. *)
Inductive pull :=
| Yield (y : ndarray)
| StopIteration
| Throw (e : exn).

(** A generator object, as the sequence of its pulls: [g i] is what the
    [i]-th [next()] gives as long as every earlier one yielded.  It is lazy
    and may never stop. *)
Definition generator := nat -> pull.

Definition gen_of_list (frames : list ndarray) : generator :=
  fun i => match nth_error frames i with
           | Some y => Yield y
           | None => StopIteration
           end.

(** Truth value of an optional string argument ([if title:]): [None] and the
    empty string are falsy. *)
Definition truthy (s : option string) : bool :=
  match s with
  | None => false
  | Some t => negb (String.eqb t EmptyString)
  end.

(** The decoration an optional string argument leaves on the plot: itself
    when truthy, none otherwise. *)
Definition applied (s : option string) : option string :=
  if truthy s then s else None.

(** ** The monad: state of the Python process, and exceptions *)

Inductive outcome (W A : Type) :=
| Return (a : A) (w : W)
| Raise (e : exn) (w : W).
Arguments Return {W A} a w.
Arguments Raise {W A} e w.

Definition M (W A : Type) := W -> outcome W A.

Definition ret {W A} (a : A) : M W A := fun w => Return a w.

Definition bind {W A B} (m : M W A) (k : A -> M W B) : M W B :=
  fun w => match m w with
           | Return a w1 => k a w1
           | Raise e w1 => Raise e w1
           end.

Definition raise {W A} (e : exn) : M W A := fun w => Raise e w.

Declare Scope py_scope.
Delimit Scope py_scope with py.
Notation "x <- c1 ;; c2" := (bind c1 (fun x => c2))
  (at level 100, c1 at next level, right associativity) : py_scope.
Notation "' p <- c1 ;; c2" := (bind c1 (fun p => c2))
  (at level 100, p pattern, c1 at next level, right associativity) : py_scope.
Notation "c1 ;; c2" := (bind c1 (fun _ => c2))
  (at level 100, right associativity) : py_scope.
Open Scope py_scope.

(** ** numpy.linspace *)

(** [np.arange(0, num)] as floats. *)
Definition arange (num : Z) : ndarray :=
  map (fun i => inject_Z (Z.of_nat i)) (seq 0 (Z.to_nat num)).

(** [y[-1] = v] *)
Definition set_last (y : ndarray) (v : num) : ndarray :=
  match y with
  | [] => []
  | _ => removelast y ++ [v]
  end.

(** External library, modelled from numpy's function of that name with
    [endpoint=True], for [num >= 0] (a negative [num] raises, see
    [py_linspace]):
<<
    div = num - 1
    y = arange(0, num)
    delta = stop - start
    if num > 1:
        step = delta / div
        if step == 0: y /= div; y = y * delta
        else:         y = y * step
    else:
        y = y * delta
    y += start
    if num > 1: y[-1] = stop
>> *)
Definition linspace (start stop : num) (num : Z) : ndarray :=
  let div := inject_Z (num - 1) in
  let y := arange num in
  let delta := (stop - start)%Q in
  let y :=
    if 1 <? num then
      let step := (delta / div)%Q in
      if Qeq_bool step 0
      then map (fun v => (v / div * delta)%Q) y
      else map (fun v => (v * step)%Q) y
    else map (fun v => (v * delta)%Q) y in
  let y := map (fun v => (v + start)%Q) y in
  if 1 <? num then set_last y stop else y.

(** ** The libraries as [plot_anim] uses them *)

(** The caller's frame producer: a callable with a [__name__] that, given
    the domain array, gives a generator of range arrays. *)
Record FrameGen (W : Type) := {
  fg_name : string;
  fg_call : ndarray -> M W generator
}.
Arguments fg_name {W} _.
Arguments fg_call {W} _ _ _.

(** A generator function: calling it only builds the generator object. *)
Definition generator_function {W} (name : string) (body : ndarray -> generator)
  : FrameGen W :=
  {| fg_name := name; fg_call := fun x => ret (body x) |}.

(** The calls [plot_anim] makes into numpy, matplotlib and IPython.  Every
    one of them may raise and may change the state of the process. *)
Record Backend (W : Type) := {
  Figure : Type;
  Axes : Type;
  Line2D : Type;
  Animation : Type;
  Video : Type;
  Display : Type;
  (* np.linspace(start, stop, num) *)
  np_linspace : num -> num -> Z -> M W ndarray;
  (* plt.subplots() *)
  plt_subplots : M W (Figure * Axes);
  (* ax.set_xlim(lim), ax.set_ylim(lim) *)
  ax_set_xlim : Axes -> num * num -> M W unit;
  ax_set_ylim : Axes -> num * num -> M W unit;
  (* plt.title(s), plt.xlabel(s), plt.ylabel(s) *)
  plt_title : string -> M W unit;
  plt_xlabel : string -> M W unit;
  plt_ylabel : string -> M W unit;
  (* line, = ax.plot(xs, ys, lw=lw) *)
  ax_plot : Axes -> ndarray -> ndarray -> Z -> M W Line2D;
  (* line.set_data(xs, ys) *)
  line_set_data : Line2D -> ndarray -> ndarray -> M W unit;
  (* animation.FuncAnimation(fig, func, init_func=, save_count=, frames=,
     interval=, blit=) *)
  FuncAnimation :
    Figure -> (ndarray -> M W (list Line2D)) -> M W (list Line2D) ->
    Z -> generator -> Z -> bool -> M W Animation;
  (* plt.close() *)
  plt_close : M W unit;
  (* anim.save(filename, writer=writer) *)
  anim_save : Animation -> string -> string -> M W unit;
  (* rc(group, key=value) *)
  rc : string -> string -> string -> M W unit;
  (* anim.to_html5_video() *)
  anim_to_html5_video : Animation -> M W Video;
  (* HTML(data) *)
  HTML : Video -> M W Display
}.
Arguments Figure {W} _.
Arguments Axes {W} _.
Arguments Line2D {W} _.
Arguments Animation {W} _.
Arguments Video {W} _.
Arguments Display {W} _.
Arguments np_linspace {W} _.
Arguments plt_subplots {W} _.
Arguments ax_set_xlim {W} _.
Arguments ax_set_ylim {W} _.
Arguments plt_title {W} _.
Arguments plt_xlabel {W} _.
Arguments plt_ylabel {W} _.
Arguments ax_plot {W} _.
Arguments line_set_data {W} _.
Arguments FuncAnimation {W} _.
Arguments plt_close {W} _.
Arguments anim_save {W} _.
Arguments rc {W} _.
Arguments anim_to_html5_video {W} _.
Arguments HTML {W} _.

(** ** animation.py *)

Section Adapter.
Context {W : Type} (be : Backend W).

Definition if_truthy (s : option string) (f : string -> M W unit) : M W unit :=
  match s with
  | Some t => if truthy s then f t else ret tt
  | None => ret tt
  end.

(** The two closures of [plot_anim], with the variables they capture as
    arguments. *)
Definition init_frame (line : Line2D be) : M W (list (Line2D be)) :=
  line_set_data be line [] [] ;;
  ret [line].

Definition animate (line : Line2D be) (x : ndarray) (y : ndarray)
  : M W (list (Line2D be)) :=
  line_set_data be line x y ;;
  ret [line].

(** [plot_anim]; the result is [None] where the Python function falls off
    its end. *)
Definition plot_anim (frame_gen : FrameGen W) (xlim ylim : num * num)
    (n delay max_frames : Z) (title xlabel ylabel : option string)
    (gif : bool) : M W (option (Display be)) :=
  x <- np_linspace be (fst xlim) (snd xlim) n ;;
  g <- fg_call frame_gen x ;;
  ' (fig, ax) <- plt_subplots be ;;
  ax_set_xlim be ax xlim ;;
  ax_set_ylim be ax ylim ;;
  if_truthy title (plt_title be) ;;
  if_truthy xlabel (plt_xlabel be) ;;
  if_truthy ylabel (plt_ylabel be) ;;
  line <- ax_plot be ax [] [] 2 ;;
  anim <- FuncAnimation be fig (animate line x) (init_frame line)
            max_frames g delay true ;;
  plt_close be ;;
  if gif then
    anim_save be anim (fg_name frame_gen ++ ".gif") "imagemagick" ;;
    ret None
  else
    rc be "animation" "html" "html5" ;;
    v <- anim_to_html5_video be anim ;;
    h <- HTML be v ;;
    ret (Some h).

(** *** The call as a linear state machine

    One program point before each library call, holding the local
    variables that are live there; [step] makes the call of that point.
    [plot_anim_run] shows it to be [plot_anim]. *)
Section Machine.
Variables (frame_gen : FrameGen W) (xlim ylim : num * num)
  (n delay max_frames : Z) (title xlabel ylabel : option string)
  (gif : bool).

Inductive point :=
| at_linspace
| at_frame_gen (x : ndarray)
| at_subplots (x : ndarray) (g : generator)
| at_set_xlim (x : ndarray) (g : generator) (fig : Figure be) (ax : Axes be)
| at_set_ylim (x : ndarray) (g : generator) (fig : Figure be) (ax : Axes be)
| at_title (x : ndarray) (g : generator) (fig : Figure be) (ax : Axes be)
| at_xlabel (x : ndarray) (g : generator) (fig : Figure be) (ax : Axes be)
| at_ylabel (x : ndarray) (g : generator) (fig : Figure be) (ax : Axes be)
| at_plot (x : ndarray) (g : generator) (fig : Figure be) (ax : Axes be)
| at_FuncAnimation (x : ndarray) (g : generator) (fig : Figure be)
    (line : Line2D be)
| at_close (anim : Animation be)
| at_save (anim : Animation be)
| at_rc (anim : Animation be)
| at_to_html5_video (anim : Animation be)
| at_HTML (v : Video be)
| returned (r : option (Display be)).

Definition step (p : point) : M W point :=
  match p with
  | at_linspace =>
      x <- np_linspace be (fst xlim) (snd xlim) n ;; ret (at_frame_gen x)
  | at_frame_gen x =>
      g <- fg_call frame_gen x ;; ret (at_subplots x g)
  | at_subplots x g =>
      ' (fig, ax) <- plt_subplots be ;; ret (at_set_xlim x g fig ax)
  | at_set_xlim x g fig ax =>
      ax_set_xlim be ax xlim ;; ret (at_set_ylim x g fig ax)
  | at_set_ylim x g fig ax =>
      ax_set_ylim be ax ylim ;; ret (at_title x g fig ax)
  | at_title x g fig ax =>
      if_truthy title (plt_title be) ;; ret (at_xlabel x g fig ax)
  | at_xlabel x g fig ax =>
      if_truthy xlabel (plt_xlabel be) ;; ret (at_ylabel x g fig ax)
  | at_ylabel x g fig ax =>
      if_truthy ylabel (plt_ylabel be) ;; ret (at_plot x g fig ax)
  | at_plot x g fig ax =>
      line <- ax_plot be ax [] [] 2 ;; ret (at_FuncAnimation x g fig line)
  | at_FuncAnimation x g fig line =>
      anim <- FuncAnimation be fig (animate line x) (init_frame line)
                max_frames g delay true ;;
      ret (at_close anim)
  | at_close anim =>
      plt_close be ;; ret (if gif then at_save anim else at_rc anim)
  | at_save anim =>
      anim_save be anim (fg_name frame_gen ++ ".gif") "imagemagick" ;;
      ret (returned None)
  | at_rc anim =>
      rc be "animation" "html" "html5" ;; ret (at_to_html5_video anim)
  | at_to_html5_video anim =>
      v <- anim_to_html5_video be anim ;; ret (at_HTML v)
  | at_HTML v =>
      h <- HTML be v ;; ret (returned (Some h))
  | returned r => ret (returned r)
  end.

Fixpoint run (fuel : nat) (p : point) : M W point :=
  match fuel with
  | O => ret p
  | S k => p' <- step p ;; run k p'
  end.

(** [reaches p w p' w']: from point [p] in state [w], calls that all
    return lead to point [p'] in state [w']. *)
Inductive reaches : point -> W -> point -> W -> Prop :=
| reaches_here p w : reaches p w p w
| reaches_next p w p1 w1 p2 w2 :
    reaches p w p1 w1 -> step p1 w1 = Return p2 w2 -> reaches p w p2 w2.

(** The function's outcome, as a final point of the machine. *)
Definition lift (o : outcome W (option (Display be))) : outcome W point :=
  match o with
  | Return r w => Return (returned r) w
  | Raise e w => Raise e w
  end.

(** The points that lie after [plt.close()]: the calls that encode the
    animation, and the return. *)
Definition after_close (p : point) : bool :=
  match p with
  | at_save _ | at_rc _ | at_to_html5_video _ | at_HTML _ | returned _ => true
  | _ => false
  end.
End Machine.
End Adapter.

Arguments at_linspace {W be}.
Arguments returned {W be} r.
Arguments at_frame_gen {W be} x.
Arguments at_subplots {W be} x g.
Arguments at_set_xlim {W be} x g fig ax.
Arguments at_set_ylim {W be} x g fig ax.
Arguments at_title {W be} x g fig ax.
Arguments at_xlabel {W be} x g fig ax.
Arguments at_ylabel {W be} x g fig ax.
Arguments at_plot {W be} x g fig ax.
Arguments at_FuncAnimation {W be} x g fig line.
Arguments at_close {W be} anim.
Arguments at_save {W be} anim.
Arguments at_rc {W be} anim.
Arguments at_to_html5_video {W be} anim.
Arguments at_HTML {W be} v.
Arguments lift {W be} o.
Arguments after_close {W be} p.

(** ** Reference backend

    External libraries (numpy, matplotlib.pyplot, matplotlib.animation,
    IPython.display), modelled from their documented behaviour, as far as
    [plot_anim] exercises them.  Warnings are not modelled, and an
    encoder is taken to encode whatever frames it is handed. *)

Module Py.

(** A Line2D artist: the data it was last given. *)
Record LineObj := {
  l_xdata : ndarray;
  l_ydata : ndarray;
  l_lw : Z
}.

(** A figure with its one axes. *)
Record FigureObj := {
  f_xlim : num * num;
  f_ylim : num * num;
  f_title : option string;
  f_xlabel : option string;
  f_ylabel : option string;
  f_lines : list LineObj
}.

(** One rendered frame: the axes' bounds and decorations, and for each
    line the points drawn. *)
Record Image := {
  im_xlim : num * num;
  im_ylim : num * num;
  im_title : option string;
  im_xlabel : option string;
  im_ylabel : option string;
  im_curves : list (list (num * num))
}.

(** An encoded animation: the encoder that made it, the frames per
    second it was given, and the frames. *)
Record Movie := {
  mv_writer : string;
  mv_fps : Q;
  mv_frames : list Image
}.

(** The state of the Python process and its surroundings.  [heap] holds
    every figure object created, at the index that is its identity;
    objects nothing refers to any more stay in it as garbage.  The other
    fields are global: pyplot's registry of open figures (the current
    one first), matplotlib's [rcParams], the movie files on disk (latest
    write first; a temporary file counts while it exists) and the movie
    encoders installed. *)
Record World := {
  heap : list FigureObj;
  pyplot_figs : list nat;
  rcParams : list (string * string);
  files : list (string * Movie);
  encoders : list string
}.

Definition P := M World.

Definition ValueError := PyErr "ValueError".
Definition RuntimeError := PyErr "RuntimeError".
Definition KeyError := PyErr "KeyError".
Definition ZeroDivisionError := PyErr "ZeroDivisionError".
Definition FileNotFoundError := PyErr "FileNotFoundError".

Definition modify (f : World -> World) : P unit := fun w => Return tt (f w).
Definition gets {A} (f : World -> A) : P A := fun w => Return (f w) w.

Definition set_heap (h : list FigureObj) (w : World) : World :=
  {| heap := h; pyplot_figs := pyplot_figs w; rcParams := rcParams w;
     files := files w; encoders := encoders w |}.
Definition set_pyplot_figs (l : list nat) (w : World) : World :=
  {| heap := heap w; pyplot_figs := l; rcParams := rcParams w;
     files := files w; encoders := encoders w |}.
Definition set_rcParams (r : list (string * string)) (w : World) : World :=
  {| heap := heap w; pyplot_figs := pyplot_figs w; rcParams := r;
     files := files w; encoders := encoders w |}.
Definition set_files (f : list (string * Movie)) (w : World) : World :=
  {| heap := heap w; pyplot_figs := pyplot_figs w; rcParams := rcParams w;
     files := f; encoders := encoders w |}.

(** [l[i] = f(l[i])] for an index in range; object handles always are. *)
Fixpoint update {A} (i : nat) (f : A -> A) (l : list A) : list A :=
  match l, i with
  | [], _ => []
  | a :: l', O => f a :: l'
  | a :: l', S j => a :: update j f l'
  end.

Fixpoint lookup {A} (k : string) (l : list (string * A)) : option A :=
  match l with
  | [] => None
  | (k', v) :: l' => if String.eqb k k' then Some v else lookup k l'
  end.

Fixpoint assign {A} (k : string) (v : A) (l : list (string * A))
  : list (string * A) :=
  match l with
  | [] => []
  | (k', v') :: l' =>
      if String.eqb k k' then (k', v) :: l' else (k', v') :: assign k v l'
  end.

Definition mem (s : string) (l : list string) : bool :=
  existsb (String.eqb s) l.

(** Run [m]; an exception that leaves it is handed back as a value, the
    way a [try] statement inside a library sees it. *)
Definition try_ {A} (m : P A) : P (A + exn) :=
  fun w => match m w with
           | Return a w1 => Return (inl a) w1
           | Raise e w1 => Return (inr e) w1
           end.

(** *** numpy *)

Definition py_linspace (start stop : num) (n : Z) : P ndarray :=
  if n <? 0
  then raise (ValueError "Number of samples must be non-negative.")
  else ret (linspace start stop n).

(** Shapes [(len x,)] and [(len y,)] broadcast when they are equal or one
    of them is 1; the array of length 1 is then repeated. *)
Definition broadcast (x y : ndarray) : option (list (num * num)) :=
  if Nat.eqb (List.length x) (List.length y) then Some (combine x y)
  else if Nat.eqb (List.length x) 1 then Some (map (fun v => (hd 0%Q x, v)) y)
  else if Nat.eqb (List.length y) 1 then Some (map (fun u => (u, hd 0%Q y)) x)
  else None.

(** *** matplotlib.pyplot and the artists *)

Definition new_figure : FigureObj :=
  {| f_xlim := (0%Q, 1%Q); f_ylim := (0%Q, 1%Q); f_title := None;
     f_xlabel := None; f_ylabel := None; f_lines := [] |}.

Definition with_xlim (v : num * num) (f : FigureObj) : FigureObj :=
  {| f_xlim := v; f_ylim := f_ylim f; f_title := f_title f;
     f_xlabel := f_xlabel f; f_ylabel := f_ylabel f; f_lines := f_lines f |}.
Definition with_ylim (v : num * num) (f : FigureObj) : FigureObj :=
  {| f_xlim := f_xlim f; f_ylim := v; f_title := f_title f;
     f_xlabel := f_xlabel f; f_ylabel := f_ylabel f; f_lines := f_lines f |}.
Definition with_title (s : string) (f : FigureObj) : FigureObj :=
  {| f_xlim := f_xlim f; f_ylim := f_ylim f; f_title := Some s;
     f_xlabel := f_xlabel f; f_ylabel := f_ylabel f; f_lines := f_lines f |}.
Definition with_xlabel (s : string) (f : FigureObj) : FigureObj :=
  {| f_xlim := f_xlim f; f_ylim := f_ylim f; f_title := f_title f;
     f_xlabel := Some s; f_ylabel := f_ylabel f; f_lines := f_lines f |}.
Definition with_ylabel (s : string) (f : FigureObj) : FigureObj :=
  {| f_xlim := f_xlim f; f_ylim := f_ylim f; f_title := f_title f;
     f_xlabel := f_xlabel f; f_ylabel := Some s; f_lines := f_lines f |}.
Definition with_lines (l : list LineObj) (f : FigureObj) : FigureObj :=
  {| f_xlim := f_xlim f; f_ylim := f_ylim f; f_title := f_title f;
     f_xlabel := f_xlabel f; f_ylabel := f_ylabel f; f_lines := l |}.

Definition update_figure (fig : nat) (f : FigureObj -> FigureObj) : P unit :=
  modify (fun w => set_heap (update fig f (heap w)) w).

(** [plt.figure()]: a new figure, registered and made current. *)
Definition py_figure : P nat :=
  fun w =>
    let fig := List.length (heap w) in
    Return fig
      (set_pyplot_figs (fig :: pyplot_figs w)
         (set_heap (heap w ++ [new_figure]) w)).

(** [plt.subplots()]: the figure and its axes are one object here. *)
Definition py_subplots : P (nat * nat) :=
  fig <- py_figure ;; ret (fig, fig).

(** [plt.gcf()]: the current figure; one is made when none is open. *)
Definition py_gcf : P nat :=
  fun w => match pyplot_figs w with
           | fig :: _ => Return fig w
           | [] => py_figure w
           end.

Definition Qlt_bool (a b : Q) : bool := negb (Qle_bool b a).
Definition Qmax (a b : Q) : Q := if Qle_bool a b then b else a.

(** [np.finfo(float).tiny], the smallest positive normal double. *)
Definition float_tiny : Q := 1 # (2 ^ 1022).

(** [matplotlib.transforms.nonsingular(vmin, vmax, expander, tiny,
    increasing)], on finite values: an interval that is tiny in absolute
    terms or narrow relative to its magnitude (and so also one whose ends
    coincide) is widened.
<<
    swapped = False
    if vmax < vmin: vmin, vmax = vmax, vmin; swapped = True
    maxabsvalue = max(abs(vmin), abs(vmax))
    if maxabsvalue < (1e6 / tiny) * np.finfo(float).tiny:
        vmin = -expander; vmax = expander
    elif vmax - vmin <= maxabsvalue * tiny:
        if vmax == 0 and vmin == 0: vmin = -expander; vmax = expander
        else: vmin -= expander*abs(vmin); vmax += expander*abs(vmax)
    if swapped and not increasing: vmin, vmax = vmax, vmin
    return vmin, vmax
>> *)
Definition nonsingular (vmin vmax expander tiny : Q) (increasing : bool)
  : Q * Q :=
  let swapped := Qlt_bool vmax vmin in
  let lo := if swapped then vmax else vmin in
  let hi := if swapped then vmin else vmax in
  let maxabsvalue := Qmax (Qabs lo) (Qabs hi) in
  let lohi :=
    if Qlt_bool maxabsvalue ((1000000 / tiny) * float_tiny)%Q
    then ((- expander)%Q, expander)
    else if Qle_bool (hi - lo)%Q (maxabsvalue * tiny)%Q then
      if Qeq_bool hi 0 && Qeq_bool lo 0
      then ((- expander)%Q, expander)
      else ((lo - expander * Qabs lo)%Q, (hi + expander * Qabs hi)%Q)
    else (lo, hi) in
  if swapped && negb increasing then (snd lohi, fst lohi) else lohi.
Arguments nonsingular : simpl never.

(** The view limits that [set_xlim] and [set_ylim] store for the bounds
    they are given: [nonsingular(left, right, increasing=False)] with its
    default [expander = 0.001] and [tiny = 1e-15].  Identical bounds give
    a warning first, never an exception; the scale is linear. *)
Definition view_limits (lim : num * num) : num * num :=
  nonsingular (fst lim) (snd lim) (1 # 1000) (1 # 1000000000000000) false.
Arguments view_limits : simpl never.

Definition py_set_xlim (ax : nat) (lim : num * num) : P unit :=
  update_figure ax (with_xlim (view_limits lim)).

Definition py_set_ylim (ax : nat) (lim : num * num) : P unit :=
  update_figure ax (with_ylim (view_limits lim)).

Definition py_title (s : string) : P unit :=
  fig <- py_gcf ;; update_figure fig (with_title s).

Definition py_xlabel (s : string) : P unit :=
  fig <- py_gcf ;; update_figure fig (with_xlabel s).

Definition py_ylabel (s : string) : P unit :=
  fig <- py_gcf ;; update_figure fig (with_ylabel s).

Definition figure_at (fig : nat) (w : World) : FigureObj :=
  nth fig (heap w) new_figure.

(** [ax.plot(xs, ys, lw=lw)] with one pair of arrays: one new line, whose
    handle is its axes and its index there. *)
Definition py_plot (ax : nat) (xs ys : ndarray) (lw : Z) : P (nat * nat) :=
  if Nat.eqb (List.length xs) (List.length ys) then
    i <- gets (fun w => List.length (f_lines (figure_at ax w))) ;;
    update_figure ax
      (fun f => with_lines
         (f_lines f ++ [{| l_xdata := xs; l_ydata := ys; l_lw := lw |}]) f) ;;
    ret (ax, i)
  else raise (ValueError "x and y must have same first dimension").

(** [line.set_data(xs, ys)] stores the arrays and checks nothing. *)
Definition py_set_data (line : nat * nat) (xs ys : ndarray) : P unit :=
  update_figure (fst line)
    (fun f => with_lines
       (update (snd line)
          (fun l => {| l_xdata := xs; l_ydata := ys; l_lw := l_lw l |})
          (f_lines f)) f).

(** [plt.close()]: the current figure leaves the registry; the object
    lives on for whoever holds it. *)
Definition py_close : P unit :=
  modify (fun w => set_pyplot_figs (tl (pyplot_figs w)) w).

Definition line_data (line : nat * nat) (w : World)
  : option (ndarray * ndarray) :=
  match nth_error (heap w) (fst line) with
  | Some f => match nth_error (f_lines f) (snd line) with
              | Some l => Some (l_xdata l, l_ydata l)
              | None => None
              end
  | None => None
  end.

Definition shape_mismatch : exn :=
  ValueError "shape mismatch: objects cannot be broadcast to a single shape".

(** Drawing a line pairs its x and y data, broadcasting them
    ([Line2D.recache]). *)
Fixpoint draw_lines (ls : list LineObj) : option (list (list (num * num))) :=
  match ls with
  | [] => Some []
  | l :: ls' =>
      match broadcast (l_xdata l) (l_ydata l), draw_lines ls' with
      | Some c, Some cs => Some (c :: cs)
      | _, _ => None
      end
  end.

(** Rendering the figure for one frame of a movie. *)
Definition py_draw (fig : nat) : P Image :=
  f <- gets (figure_at fig) ;;
  match draw_lines (f_lines f) with
  | Some cs =>
      ret {| im_xlim := f_xlim f; im_ylim := f_ylim f;
             im_title := f_title f; im_xlabel := f_xlabel f;
             im_ylabel := f_ylabel f; im_curves := cs |}
  | None => raise shape_mismatch
  end.

(** *** matplotlib.animation *)

(** A FuncAnimation object: what it was constructed with. *)
Record AnimObj := {
  a_fig : nat;
  a_func : ndarray -> P (list (nat * nat));
  a_init_func : P (list (nat * nat));
  a_save_count : Z;
  a_frames : generator;
  a_interval : Z;
  a_blit : bool
}.

Definition py_FuncAnimation (fig : nat) (func : ndarray -> P (list (nat * nat)))
    (init_func : P (list (nat * nat))) (save_count : Z) (frames : generator)
    (interval : Z) (blit : bool) : P AnimObj :=
  ret {| a_fig := fig; a_func := func; a_init_func := init_func;
         a_save_count := save_count; a_frames := frames;
         a_interval := interval; a_blit := blit |}.

(** The loop of [save] over the frames: the generator is pulled from its
    [i]-th item on, at most [count] times; each item goes to [func], the
    figure is then drawn and the picture is handed to the encoder.  The
    result is what the encoder was handed, and the exception that ended
    the loop if one did. *)
Fixpoint grab_frames (func : ndarray -> P (list (nat * nat))) (fig : nat)
    (g : generator) (i count : nat) : P (list Image * option exn) :=
  match count with
  | O => ret ([], None)
  | S c =>
      match g i with
      | StopIteration => ret ([], None)
      | Throw e => ret ([], Some e)
      | Yield y =>
          r <- try_ (func y ;; py_draw fig) ;;
          match r with
          | inr e => ret ([], Some e)
          | inl im =>
              ' (rest, r') <- grab_frames func fig g (S i) c ;;
              ret (im :: rest, r')
          end
      end
  end.

Definition islice_error : exn :=
  ValueError "Stop argument for islice() must be None or an integer: 0 <= x <= sys.maxsize.".

(** What [save] does with the animation once the encoder is set up:
    [init_func] once, then the frames of [islice(frames, save_count)]. *)
Definition render (a : AnimObj) : P (list Image * option exn) :=
  r <- try_ (a_init_func a) ;;
  match r with
  | inr e => ret ([], Some e)
  | inl _ =>
      if a_save_count a <? 0
      then ret ([], Some islice_error)
      else grab_frames (a_func a) (a_fig a) (a_frames a) 0
             (Z.to_nat (a_save_count a))
  end.

Definition write_file (name : string) (m : Movie) : P unit :=
  modify (fun w => set_files ((name, m) :: files w) w).

(** [open(name, 'rb').read()] *)
Definition read_file (name : string) : P Movie :=
  fun w => match lookup name (files w) with
           | Some m => Return m w
           | None => Raise (FileNotFoundError name) w
           end.

Definition remove (name : string) (l : list (string * Movie))
  : list (string * Movie) :=
  filter (fun kv => negb (String.eqb name (fst kv))) l.

(** [os.remove(name)] *)
Definition remove_file (name : string) : P unit :=
  fun w => match lookup name (files w) with
           | Some _ => Return tt (set_files (remove name (files w)) w)
           | None => Raise (FileNotFoundError name) w
           end.

Definition longest (l : list (string * Movie)) : nat :=
  fold_right (fun kv m => Nat.max (String.length (fst kv)) m) 0%nat l.

Fixpoint underscores (k : nat) : string :=
  match k with
  | O => EmptyString
  | S j => String "_"%char (underscores j)
  end.

(** A name for a temporary file.  [tempfile] tries random names until
    one is unused; here the name is longer than that of every file, and
    so unused. *)
Definition temp_name (suffix : string) (l : list (string * Movie)) : string :=
  ("/tmp/tmp" ++ underscores (S (longest l)) ++ suffix)%string.

Definition division_by_zero : exn :=
  ZeroDivisionError "float division by zero".

(** [fps = 1000. / self._interval] *)
Definition fps_of (interval : Z) : P Q :=
  if interval =? 0
  then raise division_by_zero
  else ret (1000 / inject_Z interval)%Q.

(** The writer that [save] uses for a writer given by name: that one when
    it is available; otherwise, after a warning, the first one that is. *)
Definition writer_for (writer : string) (avail : list string) : option string :=
  if mem writer avail then Some writer else hd_error avail.

Definition no_writers : exn :=
  ValueError "Cannot save animation: no writers are available. Please install ffmpeg to save animations.".

Definition writer_named (writer : string) : P string :=
  avail <- gets encoders ;;
  match writer_for writer avail with
  | Some wr => ret wr
  | None => raise no_writers
  end.

(** [with writer.saving(fig, filename, dpi): ...]: the encoder is started
    on [filename], the animation is rendered into it, and however the
    rendering ends ([try ... finally: self.finish()]) the encoder closes
    the file with the frames it was handed; an exception of the rendering
    then goes on. *)
Definition save_with (a : AnimObj) (filename writer : string) (fps : Q)
  : P unit :=
  ' (frames, r) <- render a ;;
  write_file filename
    {| mv_writer := writer; mv_fps := fps; mv_frames := frames |} ;;
  match r with
  | None => ret tt
  | Some e => raise e
  end.

(** [anim.save(filename, writer=writer)] with the writer given by name:
    the frame rate is computed from the interval, the writer is chosen,
    and the animation is encoded into the file. *)
Definition py_save (a : AnimObj) (filename writer : string) : P unit :=
  fps <- fps_of (a_interval a) ;;
  wr <- writer_named writer ;;
  save_with a filename wr fps.

(** [rc(group, key=value)] sets [rcParams[group.key]], which has to
    exist. *)
Definition py_rc (group key value : string) : P unit :=
  params <- gets rcParams ;;
  let k := (group ++ "." ++ key)%string in
  match lookup k params with
  | Some _ => modify (set_rcParams (assign k value params))
  | None => raise (KeyError k)
  end.

Definition writer_unavailable : exn :=
  RuntimeError "Requested MovieWriter not available".

(** [anim.to_html5_video()]: a temporary file is named, the writer named
    by [rcParams['animation.writer']] (which has to be available; there
    is no substitute here) is made with the frame rate of the interval,
    the animation is saved into the temporary file, and the file is read
    back and then removed.
<<
    with tempfile.NamedTemporaryFile(suffix='.m4v', delete=False) as f:
        Writer = writers[rcParams['animation.writer']]
        writer = Writer(codec='h264', bitrate=..., fps=1000. / self._interval)
        self.save(f.name, writer=writer)
    with open(f.name, 'rb') as video: ... video.read() ...
    os.remove(f.name)
>> *)
Definition py_to_html5_video (a : AnimObj) : P Movie :=
  path <- gets (fun w => temp_name ".m4v" (files w)) ;;
  params <- gets rcParams ;;
  match lookup "animation.writer" params with
  | None => raise (KeyError "animation.writer")
  | Some writer =>
      avail <- gets encoders ;;
      if mem writer avail then
        fps <- fps_of (a_interval a) ;;
        save_with a path writer fps ;;
        video <- read_file path ;;
        remove_file path ;;
        ret video
      else raise writer_unavailable
  end.

(** *** IPython.display *)

Record HTMLObj := { html_data : Movie }.

Definition py_HTML (data : Movie) : P HTMLObj :=
  ret {| html_data := data |}.

Definition py : Backend World :=
  {| Figure := nat; Axes := nat; Line2D := nat * nat; Animation := AnimObj;
     Video := Movie; Display := HTMLObj;
     np_linspace := py_linspace;
     plt_subplots := py_subplots;
     ax_set_xlim := py_set_xlim;
     ax_set_ylim := py_set_ylim;
     plt_title := py_title;
     plt_xlabel := py_xlabel;
     plt_ylabel := py_ylabel;
     ax_plot := py_plot;
     line_set_data := py_set_data;
     FuncAnimation := py_FuncAnimation;
     plt_close := py_close;
     anim_save := py_save;
     rc := py_rc;
     anim_to_html5_video := py_to_html5_video;
     HTML := py_HTML |}.

(** A freshly started process with both encoders installed; and one in
    which only ffmpeg is. *)
Definition fresh : World :=
  {| heap := []; pyplot_figs := [];
     rcParams := [("animation.html", "none"); ("animation.writer", "ffmpeg")]%string;
     files := [];
     encoders := ["ffmpeg"; "imagemagick"]%string |}.

Definition only_ffmpeg : World :=
  {| heap := []; pyplot_figs := [];
     rcParams := [("animation.html", "none"); ("animation.writer", "ffmpeg")]%string;
     files := [];
     encoders := ["ffmpeg"]%string |}.

(** *** What a call is expected to build

    Closed forms used to state what the functions above compute. *)

Definition can_broadcast (x y : ndarray) : bool :=
  match broadcast x y with Some _ => true | None => false end.

(** The figure of one call, with its single line holding [xd], [yd]. *)
Definition surface (xlim ylim : num * num) (title xlabel ylabel : option string)
    (xd yd : ndarray) : FigureObj :=
  {| f_xlim := view_limits xlim; f_ylim := view_limits ylim;
     f_title := applied title; f_xlabel := applied xlabel;
     f_ylabel := applied ylabel;
     f_lines := [{| l_xdata := xd; l_ydata := yd; l_lw := 2 |}] |}.

(** The picture of that figure with the curve [c] on it. *)
Definition picture (xlim ylim : num * num) (title xlabel ylabel : option string)
    (c : list (num * num)) : Image :=
  {| im_xlim := view_limits xlim; im_ylim := view_limits ylim;
     im_title := applied title; im_xlabel := applied xlabel;
     im_ylabel := applied ylabel; im_curves := [c] |}.

Definition curve (x y : ndarray) : list (num * num) :=
  match broadcast x y with Some c => c | None => [] end.

(** The animation object of one call whose figure is [fig]. *)
Definition the_anim (x : ndarray) (g : generator) (fig : nat)
    (delay max_frames : Z) : AnimObj :=
  {| a_fig := fig; a_func := animate py (fig, 0%nat) x;
     a_init_func := init_frame py (fig, 0%nat);
     a_save_count := max_frames; a_frames := g; a_interval := delay;
     a_blit := true |}.

(** The last part of [plot_anim], from the [if gif:] on. *)
Definition emit (name : string) (gif : bool) (anim : AnimObj)
  : P (option HTMLObj) :=
  if gif then
    py_save anim (name ++ ".gif") "imagemagick" ;;
    ret None
  else
    py_rc "animation" "html" "html5" ;;
    v <- py_to_html5_video anim ;;
    h <- py_HTML v ;;
    ret (Some h).

(** The frames among [ys] that can be drawn against [x]. *)
Definition drawn (x : ndarray) (ys : list ndarray) : list ndarray :=
  filter (can_broadcast x) ys.

(** The frames pulled from [g], from its [i]-th item on and at most
    [count] of them, up to and including the first that cannot be drawn
    against [x]; and the exception that ended the pulling, if one did. *)
Fixpoint pull_all (x : ndarray) (g : generator) (i count : nat)
  : list ndarray * option exn :=
  match count with
  | O => ([], None)
  | S c =>
      match g i with
      | StopIteration => ([], None)
      | Throw e => ([], Some e)
      | Yield y =>
          if can_broadcast x y
          then let (ys, r) := pull_all x g (S i) c in (y :: ys, r)
          else ([y], Some shape_mismatch)
      end
  end.

(** What [islice(frames, max_frames)] lets the loop pull. *)
Definition pulled (x : ndarray) (g : generator) (max_frames : Z)
  : list ndarray * option exn :=
  if max_frames <? 0 then ([], Some islice_error)
  else pull_all x g 0 (Z.to_nat max_frames).

(** The data of the line once the frames [ys] went through [animate],
    when it held [d] before. *)
Definition line_after (x : ndarray) (ys : list ndarray)
    (d : ndarray * ndarray) : ndarray * ndarray :=
  fold_left (fun _ y => (x, y)) ys d.

(** The pictures of the frames [ys] over the domain [x]. *)
Definition frames_of (xlim ylim : num * num)
    (title xlabel ylabel : option string) (x : ndarray) (ys : list ndarray)
  : list Image :=
  map (fun y => picture xlim ylim title xlabel ylabel (curve x y)) ys.

(** The state in which the heap is [h] followed by the figure of the call
    with its line holding [d], and all else is as in [w]. *)
Definition scene (xlim ylim : num * num) (title xlabel ylabel : option string)
    (h : list FigureObj) (w : World) (d : ndarray * ndarray) : World :=
  set_heap (h ++ [surface xlim ylim title xlabel ylabel (fst d) (snd d)]) w.

(** The last part of a call in closed form: what [emit] comes to in the
    state [scene ... h w d] for the animation of the call, as a function
    of what the loop pulls. *)
Definition emitted (xlim ylim : num * num) (title xlabel ylabel : option string)
    (h : list FigureObj) (w : World) (x : ndarray) (name : string)
    (gif : bool) (delay : Z) (p : list ndarray * option exn)
    (d : ndarray * ndarray) : outcome World (option HTMLObj) :=
  let sc := scene xlim ylim title xlabel ylabel h in
  let frames := frames_of xlim ylim title xlabel ylabel x (drawn x (fst p)) in
  let d' := line_after x (fst p) ([], []) in
  if gif then
    if delay =? 0 then Raise division_by_zero (sc w d)
    else
      match writer_for "imagemagick" (encoders w) with
      | None => Raise no_writers (sc w d)
      | Some wr =>
          let w2 :=
            set_files
              (((name ++ ".gif")%string,
                {| mv_writer := wr; mv_fps := 1000 / inject_Z delay;
                   mv_frames := frames |}) :: files w)
              (sc w d') in
          match snd p with
          | None => Return None w2
          | Some e => Raise e w2
          end
      end
  else
    match lookup "animation.html" (rcParams w) with
    | None => Raise (KeyError "animation.html") (sc w d)
    | Some _ =>
        let w1 :=
          set_rcParams (assign "animation.html" "html5"%string (rcParams w)) w in
        match lookup "animation.writer" (rcParams w) with
        | None => Raise (KeyError "animation.writer") (sc w1 d)
        | Some wr =>
            if mem wr (encoders w) then
              if delay =? 0 then Raise division_by_zero (sc w1 d)
              else
                let movie :=
                  {| mv_writer := wr; mv_fps := 1000 / inject_Z delay;
                     mv_frames := frames |} in
                match snd p with
                | None => Return (Some {| html_data := movie |}) (sc w1 d')
                | Some e =>
                    Raise e
                      (set_files
                         ((temp_name ".m4v" (files w), movie) :: files w)
                         (sc w1 d'))
                end
            else Raise writer_unavailable (sc w1 d)
        end
    end.



(** Bounds that [view_limits] leaves as they are: of a magnitude that is
    not tiny, and further apart than [1e-15] times that magnitude. *)
Definition regular (lim : num * num) : bool :=
  let m := Qmax (Qabs (fst lim)) (Qabs (snd lim)) in
  Qle_bool ((1000000 / (1 # 1000000000000000)) * float_tiny)%Q m &&
  Qlt_bool (m * (1 # 1000000000000000))%Q (Qabs (snd lim - fst lim)).


(** Every open figure is an object of the heap. *)
Definition registry_ok (w : World) : bool :=
  forallb (fun fig => Nat.ltb fig (List.length (heap w))) (pyplot_figs w).

End Py.

(** ** Frame producers used as examples *)

(** Two frames of five values, whatever the domain. *)
Definition two_frames : ndarray -> generator :=
  fun _ => gen_of_list [[0; 0; 0; 0; 0]%Q; [1; 1; 1; 1; 1]%Q].

(** The domain array itself, as the one frame. *)
Definition echo : ndarray -> generator := fun x => gen_of_list [x].

(** The animation a call has produced: the video inside the object it
    returned or, when it returned [None], the file named after the
    producer. *)
Definition produced (name : string) (r : option Py.HTMLObj) (w : Py.World)
  : option Py.Movie :=
  match r with
  | Some h => Some (Py.html_data h)
  | None => Py.lookup (name ++ ".gif") (Py.files w)
  end.

(** * Properties *)

(** ** The monad *)

Lemma bind_Return_inv {W A B} (m : M W A) (k : A -> M W B) w b w' :
  bind m k w = Return b w' ->
  exists a w1, m w = Return a w1 /\ k a w1 = Return b w'.
Proof.
  unfold bind. destruct (m w) as [a w1|e w1]; [eauto | discriminate].
Qed.

Lemma bind_Raise_inv {W A B} (m : M W A) (k : A -> M W B) w e w' :
  bind m k w = Raise e w' ->
  m w = Raise e w' \/ exists a w1, m w = Return a w1 /\ k a w1 = Raise e w'.
Proof.
  unfold bind. destruct (m w) as [a w1|e1 w1]; intros H.
  - right. exists a, w1. split; [reflexivity | exact H].
  - left. now inversion H.
Qed.

Lemma bind_Return {W A B} (m : M W A) (k : A -> M W B) w a w1 :
  m w = Return a w1 -> bind m k w = k a w1.
Proof. unfold bind. now intros ->. Qed.

Lemma bind_Raise {W A B} (m : M W A) (k : A -> M W B) w e w1 :
  m w = Raise e w1 -> bind m k w = Raise e w1.
Proof. unfold bind. now intros ->. Qed.

Lemma bind_assoc {W A B C} (m : M W A) (f : A -> M W B) (g : B -> M W C) w :
  bind (bind m f) g w = bind m (fun a => bind (f a) g) w.
Proof. unfold bind. now destruct (m w). Qed.

Lemma bind_ret_l {W A B} (a : A) (f : A -> M W B) w : bind (ret a) f w = f a w.
Proof. reflexivity. Qed.

Lemma bind_ext {W A B} (m : M W A) (f g : A -> M W B) w :
  (forall a w1, f a w1 = g a w1) -> bind m f w = bind m g w.
Proof. intros H. unfold bind. destruct (m w); [apply H | reflexivity]. Qed.

Lemma if_true_eq {A} {b : bool} (H : b = true) (u v : A) :
  (if b then u else v) = u.
Proof. now rewrite H. Qed.

Lemma if_false_eq {A} {b : bool} (H : b = false) (u v : A) :
  (if b then u else v) = v.
Proof. now rewrite H. Qed.

Section AdapterFacts.
Context {W : Type} (be : Backend W).
Variables (frame_gen : FrameGen W) (xlim ylim : num * num)
  (n delay max_frames : Z) (title xlabel ylabel : option string)
  (gif : bool).

Local Notation step' := (step be frame_gen xlim ylim n delay max_frames
                     title xlabel ylabel gif).
Local Notation run' := (run be frame_gen xlim ylim n delay max_frames
                    title xlabel ylabel gif).
Local Notation reaches' := (reaches be frame_gen xlim ylim n delay max_frames
                        title xlabel ylabel gif).
Local Notation plot_anim' := (plot_anim be frame_gen xlim ylim n delay max_frames
                          title xlabel ylabel gif).

Lemma lift_bind {A} (m : M W A) (k : A -> M W (option (Display be))) w :
  lift (bind m k w) = bind m (fun a w1 => lift (k a w1)) w.
Proof. unfold bind. now destruct (m w). Qed.

Lemma run_S k p w : run' (S k) p w = bind (step' p) (run' k) w.
Proof. reflexivity. Qed.

Lemma run_returned k r w : run' k (returned r) w = Return (returned r) w.
Proof. induction k as [|k IH]; cbn; [reflexivity | exact IH]. Qed.

(** The state machine, run for fourteen steps, is [plot_anim]. *)
Lemma plot_anim_run w : run' 14 at_linspace w = lift (plot_anim' w).
Proof.
  unfold plot_anim.
  do 2 (rewrite run_S; cbn [step]; rewrite bind_assoc, lift_bind;
        apply bind_ext; intros ? ?; rewrite bind_ret_l).
  rewrite run_S; cbn [step]; rewrite bind_assoc, lift_bind;
    apply bind_ext; intros [fig ax] ?; rewrite bind_ret_l.
  do 8 (rewrite run_S; cbn [step]; rewrite bind_assoc, lift_bind;
        apply bind_ext; intros ? ?; rewrite bind_ret_l).
  destruct (Bool.bool_dec gif true) as [Hg|Hg].
  - rewrite !(if_true_eq Hg).
    rewrite run_S; cbn [step]; rewrite bind_assoc, lift_bind;
      apply bind_ext; intros ? ?; rewrite bind_ret_l.
    apply run_returned.
  - apply Bool.not_true_is_false in Hg. rewrite !(if_false_eq Hg).
    do 3 (rewrite run_S; cbn [step]; rewrite bind_assoc, lift_bind;
          apply bind_ext; intros ? ?; rewrite bind_ret_l).
    apply run_returned.
Qed.

Lemma run_add k j p w : run' (k + j) p w = bind (run' k p) (run' j) w.
Proof.
  revert p w. induction k as [|k IH]; intros p w.
  - reflexivity.
  - change (bind (step' p) (run' (k + j)) w
            = bind (bind (step' p) (run' k)) (run' j) w).
    rewrite bind_assoc. apply bind_ext. intros p1 w1. apply IH.
Qed.

Lemma reaches_run p0 w p w0 :
  reaches' p0 w p w0 -> exists k, run' k p0 w = Return p w0.
Proof.
  induction 1 as [p w|p w p1 w1 p2 w2 _ [k IH] Hstep].
  - now exists 0%nat.
  - exists (k + 1)%nat. rewrite run_add, (bind_Return _ _ _ _ _ IH). cbn.
    now rewrite (bind_Return _ _ _ _ _ Hstep).
Qed.

Lemma reaches_trans p0 w0 p1 w1 p2 w2 :
  reaches' p0 w0 p1 w1 -> reaches' p1 w1 p2 w2 -> reaches' p0 w0 p2 w2.
Proof.
  intros H01 H12. induction H12 as [|p w p1' w1' p2' w2' _ IH Hs];
    [assumption|].
  eapply reaches_next; [apply IH, H01 | exact Hs].
Qed.

Lemma run_reaches k p0 w p w' :
  run' k p0 w = Return p w' -> reaches' p0 w p w'.
Proof.
  revert p0 w. induction k as [|k IH]; cbn; intros p0 w H.
  - inversion H; subst. apply reaches_here.
  - apply bind_Return_inv in H as (p1 & w1 & Hstep & Hrun).
    eapply reaches_trans; [|apply IH, Hrun].
    eapply reaches_next; [apply reaches_here | exact Hstep].
Qed.

Lemma run_Raise_reaches k p0 w e w' :
  run' k p0 w = Raise e w' ->
  exists p w0, reaches' p0 w p w0 /\ step' p w0 = Raise e w'.
Proof.
  revert p0 w. induction k as [|k IH]; cbn; intros p0 w H.
  - discriminate.
  - apply bind_Raise_inv in H as [H|(p1 & w1 & Hstep & Hrun)].
    + exists p0, w. split; [apply reaches_here | exact H].
    + destruct (IH _ _ Hrun) as (p & w0 & Hr & Hs).
      exists p, w0. split; [|exact Hs].
      eapply reaches_trans; [|exact Hr].
      eapply reaches_next; [apply reaches_here | exact Hstep].
Qed.

(** Two runs from the same point agree once the shorter one has left the
    function. *)
Lemma run_stable k j p w o :
  run' k p w = lift o -> run' (k + j) p w = lift o.
Proof.
  intros H. rewrite run_add. unfold bind. rewrite H.
  destruct o as [r w1|e w1]; cbn; [apply run_returned | reflexivity].
Qed.

Lemma run_agree k p w o :
  run' 14 at_linspace w = lift o -> run' k at_linspace w = p ->
  (exists r w', p = Return (returned r) w') \/ (exists e w', p = Raise e w') ->
  p = lift o.
Proof.
  intros H14 Hk Hfinal.
  destruct (Nat.le_ge_cases k 14) as [Hle|Hle].
  - replace 14%nat with (k + (14 - k))%nat in H14 by lia.
    assert (exists o', p = lift o') as [o' ->].
    { destruct Hfinal as [(r & w' & ->)|(e & w' & ->)].
      - now exists (Return r w').
      - now exists (Raise e w'). }
    rewrite (run_stable _ _ _ _ _ Hk) in H14. exact H14.
  - replace k with (14 + (k - 14))%nat in Hk by lia.
    rewrite (run_stable _ _ _ _ _ H14) in Hk. now subst.
Qed.

(** The function returns [r] exactly when the machine gets to
    [returned r]. *)
Lemma plot_anim_returns_iff w r w' :
  plot_anim' w = Return r w' <-> reaches' at_linspace w (returned r) w'.
Proof.
  split; intros H.
  - apply (run_reaches 14). rewrite plot_anim_run, H. reflexivity.
  - apply reaches_run in H as [k Hk].
    pose proof (run_agree k _ w _ (plot_anim_run w) Hk) as Ha.
    destruct (plot_anim' w) as [r1 w1|e1 w1]; cbn in Ha.
    + assert (Return (returned r) w' = Return (returned r1) w1 :> outcome W (point be))
        as E by (apply Ha; eauto).
      now inversion E.
    + assert (Return (returned r) w' = Raise e1 w1 :> outcome W (point be))
        as E by (apply Ha; eauto).
      discriminate.
Qed.

(** The function raises exactly when a library call raises, with that
    call's exception and state. *)
Lemma plot_anim_raises_iff w e w' :
  plot_anim' w = Raise e w' <->
  exists p w0, reaches' at_linspace w p w0 /\ step' p w0 = Raise e w'.
Proof.
  split.
  - intros H. apply (run_Raise_reaches 14). rewrite plot_anim_run, H.
    reflexivity.
  - intros (p & w0 & Hr & Hs).
    apply reaches_run in Hr as [k Hk].
    assert (run' (k + 1) at_linspace w = Raise e w') as Hk1.
    { rewrite run_add, (bind_Return _ _ _ _ _ Hk). cbn.
      now rewrite (bind_Raise _ _ _ _ _ Hs). }
    pose proof (run_agree _ _ w _ (plot_anim_run w) Hk1) as Ha.
    destruct (plot_anim' w) as [r1 w1|e1 w1]; cbn in Ha.
    + assert (Raise e w' = Return (returned r1) w1 :> outcome W (point be))
        as E by (apply Ha; eauto).
      discriminate.
    + assert (Raise e w' = Raise e1 w1 :> outcome W (point be))
        as E by (apply Ha; eauto).
      now inversion E.
Qed.

(** Nothing leads back to the first point, and only the first call leads
    to the producer. *)
Lemma step_not_linspace p w w' : step' p w <> Return at_linspace w'.
Proof.
  destruct p; cbn; unfold bind, ret, if_truthy; intros H;
    repeat match type of H with
           | context [match ?c with _ => _ end] => destruct c
           end; discriminate.
Qed.

Lemma reaches_linspace w w' : reaches' at_linspace w at_linspace w' -> w' = w.
Proof.
  intros H. inversion H as [|? ? p1 w1 ? ? _ Hs]; subst; [reflexivity|].
  now apply step_not_linspace in Hs.
Qed.

Lemma step_frame_gen p w x w' :
  step' p w = Return (at_frame_gen x) w' ->
  p = at_linspace /\ np_linspace be (fst xlim) (snd xlim) n w = Return x w'.
Proof.
  destruct p; cbn; unfold bind, ret, if_truthy; intros H;
    repeat match type of H with
           | context [match ?c with _ => _ end] => destruct c eqn:?
           end; try discriminate.
  inversion H; subst. now split.
Qed.

Lemma reaches_frame_gen w x w' :
  reaches' at_linspace w (at_frame_gen x) w' ->
  np_linspace be (fst xlim) (snd xlim) n w = Return x w'.
Proof.
  intros H. inversion H as [|? ? p1 w1 ? ? Hr Hs]; subst.
  apply step_frame_gen in Hs as [-> Hs].
  now apply reaches_linspace in Hr as ->.
Qed.
End AdapterFacts.

(** ** numpy.linspace *)

Lemma arange_length n : List.length (arange n) = Z.to_nat n.
Proof. unfold arange. now rewrite length_map, length_seq. Qed.

Lemma arange_nth n i :
  (i < Z.to_nat n)%nat -> nth i (arange n) 0%Q = inject_Z (Z.of_nat i).
Proof.
  intros Hi. unfold arange.
  rewrite (nth_indep _ 0%Q (inject_Z (Z.of_nat 0))) by now rewrite length_map, length_seq.
  rewrite (map_nth (fun i => inject_Z (Z.of_nat i))), seq_nth by assumption.
  reflexivity.
Qed.

Lemma removelast_length {A} (l : list A) :
  List.length (removelast l) = (List.length l - 1)%nat.
Proof.
  induction l as [|a l IH]; [reflexivity|].
  destruct l as [|b l]; [reflexivity|].
  change (S (List.length (removelast (b :: l))) = List.length (b :: l)).
  rewrite IH. cbn. lia.
Qed.

Lemma set_last_length y v : List.length (set_last y v) = List.length y.
Proof.
  destruct y as [|u y]; [reflexivity|].
  unfold set_last. rewrite length_app, removelast_length. cbn. lia.
Qed.

Lemma removelast_nth {A} (l : list A) i d :
  (S i < List.length l)%nat -> nth i (removelast l) d = nth i l d.
Proof.
  revert i. induction l as [|a l IH]; intros i Hi; [inversion Hi|].
  destruct l as [|b l]; [cbn in Hi; lia|].
  destruct i as [|i]; [reflexivity|].
  change (nth i (removelast (b :: l)) d = nth i (b :: l) d).
  apply IH. cbn in *. lia.
Qed.

Lemma set_last_nth y v i :
  (i < List.length y)%nat ->
  nth i (set_last y v) 0%Q = if Nat.eqb (S i) (List.length y) then v else nth i y 0%Q.
Proof.
  intros Hi. destruct y as [|u y]; [inversion Hi|].
  unfold set_last. destruct (Nat.eqb_spec (S i) (List.length (u :: y))) as [E|E].
  - rewrite app_nth2 by (rewrite removelast_length; lia).
    rewrite removelast_length.
    replace (i - (List.length (u :: y) - 1))%nat with 0%nat by lia.
    reflexivity.
  - rewrite app_nth1 by (rewrite removelast_length; lia).
    apply removelast_nth. lia.
Qed.

Lemma map_nth_Q (f : Q -> Q) l i :
  (i < List.length l)%nat -> nth i (map f l) 0%Q = f (nth i l 0%Q).
Proof.
  intros Hi. rewrite (nth_indep _ 0%Q (f 0%Q)) by now rewrite length_map.
  apply map_nth.
Qed.

Lemma linspace_length a b n : List.length (linspace a b n) = Z.to_nat n.
Proof.
  unfold linspace.
  destruct (1 <? n); [destruct (Qeq_bool _ 0)|];
    rewrite ?set_last_length, !length_map; apply arange_length.
Qed.

Lemma div_nonzero n : 1 < n -> ~ (inject_Z (n - 1) == 0)%Q.
Proof. intros Hn. unfold Qeq. cbn. lia. Qed.

Lemma spacing_by_step (a b d i : Q) :
  ~ (d == 0)%Q -> (i * ((b - a) / d) + a == a + i * (b - a) / d)%Q.
Proof. intros Hd. field. exact Hd. Qed.

Lemma spacing_by_ratio (a b d i : Q) :
  ~ (d == 0)%Q -> (i / d * (b - a) + a == a + i * (b - a) / d)%Q.
Proof. intros Hd. field. exact Hd. Qed.

Lemma last_point (a b d : Q) :
  ~ (d == 0)%Q -> (b == a + d * (b - a) / d)%Q.
Proof. intros Hd. field. exact Hd. Qed.

(** Entry [i] of a sequence of more than one point. *)
Lemma linspace_nth a b n i :
  1 < n -> (i < Z.to_nat n)%nat ->
  (nth i (linspace a b n) 0 ==
   a + inject_Z (Z.of_nat i) * (b - a) / inject_Z (n - 1))%Q.
Proof.
  intros Hn Hi. pose proof (div_nonzero n Hn) as Hd.
  unfold linspace. replace (1 <? n) with true by (symmetry; now apply Z.ltb_lt).
  assert (forall f : Q -> Q,
            List.length (map (fun v => (v + a)%Q) (map f (arange n))) = Z.to_nat n)
    as Hlen by (intros f; now rewrite !length_map, arange_length).
  destruct (Qeq_bool ((b - a) / inject_Z (n - 1)) 0);
    (rewrite set_last_nth by (now rewrite Hlen); rewrite Hlen;
     destruct (Nat.eqb_spec (S i) (Z.to_nat n)) as [E|E];
     [ replace (Z.of_nat i) with (n - 1) by lia; apply last_point, Hd
     | rewrite !map_nth_Q, arange_nth
         by (rewrite ?length_map, ?arange_length; assumption);
       first [apply spacing_by_step, Hd | apply spacing_by_ratio, Hd] ]).
Qed.

Lemma one_point (a b : Q) : (inject_Z (Z.of_nat 0) * (b - a) + a == a)%Q.
Proof. change (inject_Z (Z.of_nat 0)) with 0%Q. ring. Qed.

(** A sequence of one point is the start of the range. *)
Lemma linspace_one a b : exists v, linspace a b 1 = [v] /\ (v == a)%Q.
Proof.
  exists (inject_Z (Z.of_nat 0) * (b - a) + a)%Q.
  split; [reflexivity | apply one_point].
Qed.

Lemma linspace_zero a b : linspace a b 0 = [].
Proof. reflexivity. Qed.

(** ** The reference backend *)

Import Py.

Lemma update_app_last {A} (h : list A) (a : A) f :
  update (List.length h) f (h ++ [a]) = h ++ [f a].
Proof. induction h as [|b h IH]; cbn; [reflexivity | now rewrite IH]. Qed.

Lemma nth_app_last {A} (h : list A) (a d : A) :
  nth (List.length h) (h ++ [a]) d = a.
Proof. induction h as [|b h IH]; cbn; [reflexivity | exact IH]. Qed.

Lemma nth_error_app_last {A} (h : list A) (a : A) :
  nth_error (h ++ [a]) (List.length h) = Some a.
Proof. induction h as [|b h IH]; cbn; [reflexivity | exact IH]. Qed.

Lemma set_heap_id w : set_heap (heap w) w = w.
Proof. now destruct w. Qed.

(** Up to the [if gif:], a call builds one figure, leaves it closed, and
    hands [the_anim] to the last part. *)
Lemma plot_anim_py fg xlim ylim n delay max_frames title xlabel ylabel gif w :
  plot_anim py fg xlim ylim n delay max_frames title xlabel ylabel gif w =
  if n <? 0
  then Raise (ValueError "Number of samples must be non-negative.") w
  else
    match fg_call fg (linspace (fst xlim) (snd xlim) n) w with
    | Raise e w1 => Raise e w1
    | Return g w1 =>
        emit (fg_name fg) gif
          (the_anim (linspace (fst xlim) (snd xlim) n) g
             (List.length (heap w1)) delay max_frames)
          (scene xlim ylim title xlabel ylabel (heap w1) w1 ([], []))
    end.
Proof.
  unfold scene.
  unfold plot_anim. cbn. unfold bind at 1. unfold py_linspace.
  destruct (n <? 0); [reflexivity|]. cbn. unfold bind at 1.
  destruct (fg_call fg _ w) as [g w1|e w1]; [|reflexivity].
  unfold if_truthy, surface, applied.
  destruct title as [t|], xlabel as [xl|], ylabel as [yl|]; cbn [truthy];
    repeat match goal with
           | |- context [negb (String.eqb ?s EmptyString)] =>
               destruct (negb (String.eqb s EmptyString))
           end;
    cbv [bind ret py plt_subplots ax_set_xlim ax_set_ylim plt_title plt_xlabel
         plt_ylabel ax_plot FuncAnimation plt_close py_subplots py_figure
         py_set_xlim py_set_ylim py_title py_xlabel py_ylabel py_gcf py_plot
         py_close py_FuncAnimation update_figure modify gets figure_at];
    cbn;
    repeat (rewrite ?update_app_last, ?nth_app_last; cbn).
  all: reflexivity.
Qed.

(** *** Temporary files *)

Lemma filter_all {A} (f : A -> bool) (l : list A) :
  (forall a, In a l -> f a = true) -> filter f l = l.
Proof.
  induction l as [|a l IH]; intros H; cbn; [reflexivity|].
  rewrite (H a (or_introl eq_refl)), IH; [reflexivity|].
  intros b Hb. apply H. now right.
Qed.

Lemma longest_ge l kv : In kv l -> (String.length (fst kv) <= longest l)%nat.
Proof.
  induction l as [|a l IH]; [intros []|].
  unfold longest. cbn [In fold_right]. fold (longest l).
  intros [->|H]; [lia|]. specialize (IH H). lia.
Qed.

Lemma length_underscores k : String.length (underscores k) = k.
Proof. induction k as [|k IH]; cbn; [reflexivity | now rewrite IH]. Qed.

Lemma string_length_app s t :
  String.length (s ++ t) = (String.length s + String.length t)%nat.
Proof. induction s as [|c s IH]; cbn; [reflexivity | now rewrite IH]. Qed.

(** The name of the temporary file is the name of no file. *)
Lemma temp_name_fresh suffix l kv :
  In kv l -> String.eqb (temp_name suffix l) (fst kv) = false.
Proof.
  intros H. apply String.eqb_neq. intros E.
  apply longest_ge in H. rewrite <- E in H. unfold temp_name in H.
  rewrite !string_length_app, length_underscores in H. cbn in H. lia.
Qed.


Lemma remove_head k v l : remove k ((k, v) :: l) = remove k l.
Proof. unfold remove. cbn [filter fst]. now rewrite String.eqb_refl. Qed.

Lemma remove_temp_name suffix l : remove (temp_name suffix l) l = l.
Proof.
  apply filter_all. intros kv H. now rewrite temp_name_fresh.
Qed.

(** *** Rendering the figure of a call *)

Section Rendering.
Variables (xlim ylim : num * num) (title xlabel ylabel : option string).
Variables (h : list FigureObj) (w : World).
Variables (x : ndarray) (g : generator).

Local Notation scene' := (scene xlim ylim title xlabel ylabel h w).
Local Notation fig := (List.length h).

Lemma set_data_scene xs ys d :
  py_set_data (fig, 0%nat) xs ys (scene' d) = Return tt (scene' (xs, ys)).
Proof.
  unfold py_set_data, update_figure, modify, scene. cbn.
  now rewrite update_app_last.
Qed.

Lemma draw_scene d :
  py_draw fig (scene' d) =
  match broadcast (fst d) (snd d) with
  | Some c => Return (picture xlim ylim title xlabel ylabel c) (scene' d)
  | None => Raise shape_mismatch (scene' d)
  end.
Proof.
  unfold py_draw, gets, figure_at, scene, bind. cbn.
  rewrite nth_app_last. cbn.
  destruct (broadcast (fst d) (snd d)); reflexivity.
Qed.

Lemma animate_scene y d :
  animate py (fig, 0%nat) x y (scene' d) = Return [(fig, 0%nat)] (scene' (x, y)).
Proof.
  unfold animate. cbn [line_set_data py].
  now rewrite (bind_Return _ _ _ _ _ (set_data_scene x y d)).
Qed.

Lemma init_frame_scene d :
  init_frame py (fig, 0%nat) (scene' d) = Return [(fig, 0%nat)] (scene' ([], [])).
Proof.
  unfold init_frame. cbn [line_set_data py].
  now rewrite (bind_Return _ _ _ _ _ (set_data_scene [] [] d)).
Qed.

(** The loop over the frames, in closed form. *)
Lemma grab_frames_scene count : forall i d,
  grab_frames (animate py (fig, 0%nat) x) fig g i count (scene' d) =
  Return
    (frames_of xlim ylim title xlabel ylabel x
       (drawn x (fst (pull_all x g i count))),
     snd (pull_all x g i count))
    (scene' (line_after x (fst (pull_all x g i count)) d)).
Proof.
  induction count as [|cnt IH]; intros i d; cbn [grab_frames pull_all].
  - reflexivity.
  - destruct (g i) as [y| |e]; try reflexivity.
    unfold bind at 1, try_, bind at 1. rewrite animate_scene, draw_scene.
    unfold can_broadcast. cbn [fst snd].
    destruct (broadcast x y) as [c|] eqn:Hb.
    + unfold bind. rewrite IH.
      destruct (pull_all x g (S i) cnt) as [ys r]. cbn [fst snd ret].
      unfold drawn, frames_of, can_broadcast, curve, ret. cbn [filter].
      rewrite Hb. cbn [map]. rewrite Hb. reflexivity.
    + cbn. unfold drawn, can_broadcast. cbn [filter]. rewrite Hb. reflexivity.
Qed.

(** [init_func], then the loop. *)
Lemma render_scene delay max_frames d :
  render (the_anim x g fig delay max_frames) (scene' d) =
  Return
    (frames_of xlim ylim title xlabel ylabel x
       (drawn x (fst (pulled x g max_frames))),
     snd (pulled x g max_frames))
    (scene' (line_after x (fst (pulled x g max_frames)) ([], []))).
Proof.
  unfold render, pulled.
  cbn [a_init_func a_save_count a_func a_fig a_frames the_anim].
  unfold bind at 1, try_. rewrite init_frame_scene.
  destruct (max_frames <? 0); [reflexivity|].
  apply grab_frames_scene.
Qed.

Lemma save_with_scene filename writer fps delay max_frames d :
  save_with (the_anim x g fig delay max_frames) filename writer fps (scene' d) =
  let w2 :=
    set_files
      ((filename,
        {| mv_writer := writer; mv_fps := fps;
           mv_frames :=
             frames_of xlim ylim title xlabel ylabel x
               (drawn x (fst (pulled x g max_frames))) |}) :: files w)
      (scene' (line_after x (fst (pulled x g max_frames)) ([], []))) in
  match snd (pulled x g max_frames) with
  | None => Return tt w2
  | Some e => Raise e w2
  end.
Proof.
  unfold save_with, bind at 1. rewrite render_scene.
  destruct (snd (pulled x g max_frames)); reflexivity.
Qed.
End Rendering.

Lemma lookup_assign_other {A} k k' (v : A) l :
  k <> k' -> lookup k' (assign k v l) = lookup k' l.
Proof.
  intros Hk. induction l as [|[k0 v0] l IH]; cbn; [reflexivity|].
  destruct (String.eqb_spec k k0) as [->|E]; cbn.
  - destruct (String.eqb_spec k' k0) as [->|E']; [congruence | reflexivity].
  - now rewrite IH.
Qed.

Lemma lookup_assign_same {A} k (v : A) l :
  lookup k l <> None -> lookup k (assign k v l) = Some v.
Proof.
  induction l as [|[k0 v0] l IH]; cbn; [congruence|].
  destruct (String.eqb_spec k k0) as [->|E]; cbn.
  - now rewrite String.eqb_refl.
  - destruct (String.eqb_spec k k0); [congruence | exact IH].
Qed.

Lemma set_rcParams_scene r xlim ylim title xlabel ylabel h w d :
  set_rcParams r (scene xlim ylim title xlabel ylabel h w d)
  = scene xlim ylim title xlabel ylabel h (set_rcParams r w) d.
Proof. reflexivity. Qed.

(** The last part of a call, in closed form. *)
Lemma emit_scene xlim ylim title xlabel ylabel h w x g name gif delay
    max_frames d :
  emit name gif (the_anim x g (List.length h) delay max_frames)
    (scene xlim ylim title xlabel ylabel h w d)
  = emitted xlim ylim title xlabel ylabel h w x name gif delay
      (pulled x g max_frames) d.
Proof.
  unfold emit, emitted. destruct gif.
  - unfold bind at 1, py_save, bind at 1, fps_of.
    cbn [a_interval the_anim].
    destruct (delay =? 0); [reflexivity|].
    unfold ret, bind at 1, writer_named, bind at 1, gets.
    cbn [encoders scene set_heap].
    destruct (writer_for "imagemagick" (encoders w)) as [wr|]; [|reflexivity].
    unfold ret. rewrite save_with_scene. cbv zeta.
    destruct (snd (pulled x g max_frames)); reflexivity.
  - unfold bind at 1, py_rc, bind at 1, gets. cbn [rcParams scene set_heap].
    change ("animation" ++ "." ++ "html")%string with "animation.html"%string.
    destruct (lookup "animation.html" (rcParams w)) as [v0|]; [|reflexivity].
    unfold modify. rewrite set_rcParams_scene.
    unfold bind at 1, py_to_html5_video, bind at 1, gets, bind at 1.
    cbn [rcParams files encoders scene set_heap set_rcParams].
    rewrite lookup_assign_other by discriminate.
    destruct (lookup "animation.writer" (rcParams w)) as [wr|]; [|reflexivity].
    unfold bind at 1. cbn [rcParams files encoders scene set_heap set_rcParams].
    destruct (mem wr (encoders w)); [|reflexivity].
    unfold bind at 1, fps_of. cbn [a_interval the_anim].
    destruct (delay =? 0); [reflexivity|].
    unfold ret, bind at 1. rewrite save_with_scene. cbv zeta.
    destruct (snd (pulled x g max_frames)) as [e|]; [reflexivity|].
    unfold bind at 1, read_file. cbn [files set_files set_rcParams lookup].
    rewrite String.eqb_refl.
    unfold bind at 1, remove_file. cbn [files set_files set_rcParams lookup].
    rewrite String.eqb_refl, remove_head, remove_temp_name. reflexivity.
Qed.

(** A whole call, in closed form. *)
Lemma plot_anim_emitted fg xlim ylim n delay max_frames title xlabel ylabel
    gif w :
  plot_anim py fg xlim ylim n delay max_frames title xlabel ylabel gif w =
  if n <? 0
  then Raise (ValueError "Number of samples must be non-negative.") w
  else
    match fg_call fg (linspace (fst xlim) (snd xlim) n) w with
    | Raise e w1 => Raise e w1
    | Return g w1 =>
        emitted xlim ylim title xlabel ylabel (heap w1) w1
          (linspace (fst xlim) (snd xlim) n) (fg_name fg) gif delay
          (pulled (linspace (fst xlim) (snd xlim) n) g max_frames) ([], [])
    end.
Proof.
  rewrite plot_anim_py. destruct (n <? 0); [reflexivity|].
  destruct (fg_call fg _ w) as [g w1|e w1]; [|reflexivity].
  apply emit_scene.
Qed.

(** *** What the loop pulls *)

Lemma pull_all_None_drawn x g : forall count i,
  snd (pull_all x g i count) = None ->
  drawn x (fst (pull_all x g i count)) = fst (pull_all x g i count).
Proof.
  induction count as [|cnt IH]; intros i; cbn [pull_all]; [reflexivity|].
  destruct (g i) as [y| |e]; try reflexivity.
  destruct (can_broadcast x y) eqn:Hy; [|discriminate].
  specialize (IH (S i)).
  destruct (pull_all x g (S i) cnt) as [ys r]. cbn [fst snd] in *.
  intros Hr. unfold drawn in *. cbn [filter]. now rewrite Hy, IH.
Qed.

Lemma pull_all_length x g : forall count i,
  (List.length (fst (pull_all x g i count)) <= count)%nat.
Proof.
  induction count as [|cnt IH]; intros i; cbn [pull_all]; [cbn; lia|].
  destruct (g i) as [y| |e]; try (cbn; lia).
  destruct (can_broadcast x y); [|cbn; lia].
  specialize (IH (S i)).
  destruct (pull_all x g (S i) cnt) as [ys r]. cbn [fst List.length] in *. lia.
Qed.

(** Only the items up to the bound count. *)
Lemma pull_all_ext x g g' : forall count i,
  (forall j, (i <= j < i + count)%nat -> g j = g' j) ->
  pull_all x g i count = pull_all x g' i count.
Proof.
  induction count as [|cnt IH]; intros i H; cbn [pull_all]; [reflexivity|].
  rewrite <- (H i) by lia.
  destruct (g i) as [y| |e]; try reflexivity.
  rewrite (IH (S i)); [reflexivity|]. intros j Hj. apply H. lia.
Qed.

Lemma pulled_ext x g g' max_frames :
  (forall j, (j < Z.to_nat max_frames)%nat -> g j = g' j) ->
  pulled x g max_frames = pulled x g' max_frames.
Proof.
  intros H. unfold pulled. destruct (max_frames <? 0); [reflexivity|].
  apply pull_all_ext. intros j Hj. apply H. lia.
Qed.

(** A branch in which the call does not return. *)
Ltac absurd_call :=
  split;
  [ discriminate
  | let H := fresh in
    intros H; decompose [ex and] H; clear H;
    repeat match goal with
           | E : Return _ _ = Return _ _ |- _ => inversion E; clear E; subst
           end;
    congruence ].

(** *** A whole call that returns *)

Section Call.
Variables (fg : FrameGen World) (xlim ylim : num * num)
  (n delay max_frames : Z) (title xlabel ylabel : option string).

Local Notation x := (linspace (fst xlim) (snd xlim) n).
Local Notation name := (fg_name fg).

(** A call on the file path returns exactly when the sequence can be
    built, the producer gives its generator, the delay is not zero, an
    encoder is found and every frame pulled can be drawn; it then leaves
    the file behind. *)
Lemma plot_anim_gif_Return w r w' :
  plot_anim py fg xlim ylim n delay max_frames title xlabel ylabel true w
    = Return r w' <->
  exists g w1 ys wr,
    (n <? 0) = false /\ (max_frames <? 0) = false /\
    fg_call fg x w = Return g w1 /\
    (delay =? 0) = false /\
    writer_for "imagemagick" (encoders w1) = Some wr /\
    pull_all x g 0 (Z.to_nat max_frames) = (ys, None) /\
    r = None /\
    w' = set_files
           (((name ++ ".gif")%string,
             {| mv_writer := wr; mv_fps := 1000 / inject_Z delay;
                mv_frames := frames_of xlim ylim title xlabel ylabel x ys |})
            :: files w1)
           (scene xlim ylim title xlabel ylabel (heap w1) w1
              (line_after x ys ([], []))).
Proof.
  rewrite plot_anim_emitted. unfold emitted, pulled.
  destruct (n <? 0) eqn:Hn; [absurd_call|].
  destruct (fg_call fg x w) as [g w1|e w1] eqn:Hfg; [|absurd_call].
  destruct (delay =? 0) eqn:Hd; [absurd_call|].
  destruct (writer_for "imagemagick" (encoders w1)) as [wr|] eqn:Hwr;
    [|absurd_call].
  destruct (max_frames <? 0) eqn:Hmf; [cbn [fst snd]; absurd_call|].
  pose proof (pull_all_None_drawn x g (Z.to_nat max_frames) 0%nat) as Hdr.
  destruct (pull_all x g 0 (Z.to_nat max_frames)) as [ys [e|]] eqn:Hp;
    cbn [fst snd] in *; [absurd_call|].
  rewrite (Hdr eq_refl). split.
  - intros E. inversion E; subst. exists g, w1, ys, wr.
    repeat split; assumption.
  - intros (g' & w1' & ys' & wr' & _ & _ & E & _ & Hwr' & Hp' & -> & ->).
    inversion E; subst. rewrite Hp in Hp'. inversion Hp'; subst.
    rewrite Hwr in Hwr'. now inversion Hwr'.
Qed.

(** The same for the video path; what stays behind is the setting
    [animation.html]. *)
Lemma plot_anim_video_Return w r w' :
  plot_anim py fg xlim ylim n delay max_frames title xlabel ylabel false w
    = Return r w' <->
  exists g w1 ys writer,
    (n <? 0) = false /\ (max_frames <? 0) = false /\
    fg_call fg x w = Return g w1 /\
    lookup "animation.html" (rcParams w1) <> None /\
    lookup "animation.writer" (rcParams w1) = Some writer /\
    mem writer (encoders w1) = true /\
    (delay =? 0) = false /\
    pull_all x g 0 (Z.to_nat max_frames) = (ys, None) /\
    r = Some {| html_data :=
                  {| mv_writer := writer; mv_fps := 1000 / inject_Z delay;
                     mv_frames :=
                       frames_of xlim ylim title xlabel ylabel x ys |} |} /\
    w' = scene xlim ylim title xlabel ylabel (heap w1)
           (set_rcParams (assign "animation.html" "html5"%string (rcParams w1)) w1)
           (line_after x ys ([], [])).
Proof.
  rewrite plot_anim_emitted. unfold emitted, pulled.
  destruct (n <? 0) eqn:Hn; [absurd_call|].
  destruct (fg_call fg x w) as [g w1|e w1] eqn:Hfg; [|absurd_call].
  destruct (lookup "animation.html" (rcParams w1)) as [v0|] eqn:Hh;
    [|absurd_call].
  destruct (lookup "animation.writer" (rcParams w1)) as [wr|] eqn:Hw;
    [|absurd_call].
  destruct (mem wr (encoders w1)) eqn:Hm; [|absurd_call].
  destruct (delay =? 0) eqn:Hd; [absurd_call|].
  destruct (max_frames <? 0) eqn:Hmf; [cbn [fst snd]; absurd_call|].
  pose proof (pull_all_None_drawn x g (Z.to_nat max_frames) 0%nat) as Hdr.
  destruct (pull_all x g 0 (Z.to_nat max_frames)) as [ys [e|]] eqn:Hp;
    cbn [fst snd] in *; [absurd_call|].
  rewrite (Hdr eq_refl). split.
  - intros E. inversion E; subst. exists g, w1, ys, wr.
    repeat split; congruence.
  - intros (g' & w1' & ys' & wr' & _ & _ & E & _ & Hw' & _ & _ & Hp' & -> & ->).
    inversion E; subst. rewrite Hp in Hp'. inversion Hp'; subst.
    rewrite Hw in Hw'. now inversion Hw'.
Qed.
End Call.

(** *** The line artifact *)

Lemma nth_error_update_same {A} (l : list A) i f a :
  nth_error l i = Some a -> nth_error (update i f l) i = Some (f a).
Proof.
  revert i. induction l as [|b l IH]; intros [|i] H; cbn in *;
    try discriminate.
  - now inversion H.
  - now apply IH.
Qed.

Lemma set_data_line_data line xs ys w :
  line_data line w <> None ->
  exists w1, py_set_data line xs ys w = Return tt w1 /\
             line_data line w1 = Some (xs, ys).
Proof.
  intros H. eexists. split; [reflexivity|].
  unfold line_data in *. cbn.
  destruct (nth_error (heap w) (fst line)) as [f|] eqn:Hf; [|congruence].
  rewrite (nth_error_update_same _ _ _ _ Hf). cbn.
  destruct (nth_error (f_lines f) (snd line)) as [l|] eqn:Hl; [|congruence].
  now rewrite (nth_error_update_same _ _ _ _ Hl).
Qed.

Lemma scene_line_data xlim ylim title xlabel ylabel h w d :
  line_data (List.length h, 0%nat) (scene xlim ylim title xlabel ylabel h w d)
  = Some d.
Proof.
  unfold line_data, scene. cbn. rewrite nth_error_app_last. cbn.
  now destruct d.
Qed.


(** *** Frame producers of finitely many frames *)


Lemma frames_of_length xlim ylim title xlabel ylabel x ys :
  List.length (frames_of xlim ylim title xlabel ylabel x ys) = List.length ys.
Proof. apply length_map. Qed.



(** The writer that wrote is an installed one, and the one asked for when
    that is installed. *)
Lemma writer_for_spec writer avail wr :
  writer_for writer avail = Some wr ->
  mem wr avail = true /\ (mem writer avail = true -> wr = writer).
Proof.
  unfold writer_for. destruct (mem writer avail) eqn:Hm.
  - intros E. inversion E; subst. now split.
  - destruct avail as [|a l]; [discriminate|]. cbn [hd_error].
    intros E. inversion E; subst. split; [|discriminate].
    cbn. now rewrite String.eqb_refl.
Qed.










(** *** View limits *)

Lemma Qlt_bool_true a b : Qlt_bool a b = true <-> (a < b)%Q.
Proof.
  unfold Qlt_bool. rewrite negb_true_iff. split.
  - intros H. apply Qnot_le_lt. intros Hle. apply Qle_bool_iff in Hle.
    congruence.
  - intros H. destruct (Qle_bool b a) eqn:E; [|reflexivity].
    apply Qle_bool_iff in E. lra.
Qed.

Lemma Qlt_bool_false a b : Qlt_bool a b = false <-> (b <= a)%Q.
Proof.
  unfold Qlt_bool. rewrite negb_false_iff. apply Qle_bool_iff.
Qed.

Lemma Qle_bool_false a b : Qle_bool a b = false <-> (b < a)%Q.
Proof.
  split.
  - intros H. apply Qnot_le_lt. intros Hle. apply Qle_bool_iff in Hle.
    congruence.
  - intros H. destruct (Qle_bool a b) eqn:E; [|reflexivity].
    apply Qle_bool_iff in E. lra.
Qed.

Lemma Qmax_spec a b :
  (a <= Qmax a b /\ b <= Qmax a b /\ (Qmax a b = a \/ Qmax a b = b))%Q.
Proof.
  unfold Qmax. destruct (Qle_bool a b) eqn:E.
  - apply Qle_bool_iff in E. repeat split; try lra. now right.
  - apply Qle_bool_false in E. repeat split; try lra. now left.
Qed.



(** Regular bounds are left as they are. *)
Lemma regular_view_limits lim : regular lim = true -> view_limits lim = lim.
Proof.
  destruct lim as [a b]. unfold regular, view_limits, nonsingular.
  cbn [fst snd]. intros H. apply andb_prop in H as [H1 H2].
  apply Qlt_bool_true in H2.
  destruct (Qmax_spec (Qabs a) (Qabs b)) as (Ma & Mb & Mc).
  destruct (Qmax_spec (Qabs b) (Qabs a)) as (Ma' & Mb' & Mc').
  destruct (Qlt_bool b a) eqn:Hs.
  - apply Qlt_bool_true in Hs. cbn [andb negb].
    assert (Qmax (Qabs b) (Qabs a) == Qmax (Qabs a) (Qabs b))%Q as HM.
    { destruct Mc as [Mc|Mc], Mc' as [Mc'|Mc']; rewrite Mc, Mc' in *; lra. }
    apply Qle_bool_iff in H1.
    replace (Qlt_bool (Qmax (Qabs b) (Qabs a)) _) with false
      by (symmetry; apply Qlt_bool_false; lra).
    replace (Qle_bool (a - b) _) with false; [reflexivity|].
    symmetry. apply Qle_bool_false.
    pose proof (Qabs_neg (b - a) ltac:(lra)) as E. lra.
  - apply Qlt_bool_false in Hs. cbn [andb].
    unfold Qlt_bool at 1. rewrite H1. cbn [negb].
    replace (Qle_bool (b - a) _) with false; [reflexivity|].
    symmetry. apply Qle_bool_false.
    pose proof (Qabs_pos (b - a) ltac:(lra)) as E. lra.
Qed.
(** * The claims *)

(** C7: whatever exception leaves [plot_anim] is the exception of one of
    its library calls, raised in the state that the calls before it led to,
    and it leaves with the same class, message and state; conversely an
    exception of any call that is reached leaves the function.  Nothing is
    caught, retried or translated.  This holds for every backend and
    every frame producer. *)
Theorem C7_failures_propagate_unmodified {W} (be : Backend W)
    (frame_gen : FrameGen W) xlim ylim n delay max_frames title xlabel ylabel
    gif w e w' :
  plot_anim be frame_gen xlim ylim n delay max_frames title xlabel ylabel gif w
    = Raise e w' <->
  exists p w0,
    reaches be frame_gen xlim ylim n delay max_frames title xlabel ylabel gif
      at_linspace w p w0 /\
    step be frame_gen xlim ylim n delay max_frames title xlabel ylabel gif p w0
      = Raise e w'.
Proof. apply plot_anim_raises_iff. Qed.

(** C1, as amended: with [n >= 1] the array handed to the frame producer
    is [linspace a b n]; it has [n] entries; for [n > 1] entry [i] is
    [a + i * (b - a) / (n - 1)]; for [n = 1] the one entry is [a]. *)
Theorem C1_domain_sequence (fg : FrameGen World) a b ylim n delay max_frames
    title xlabel ylabel gif w :
  1 <= n ->
  reaches py fg (a, b) ylim n delay max_frames title xlabel ylabel gif
    at_linspace w (at_frame_gen (linspace a b n)) w /\
  (forall x w',
     reaches py fg (a, b) ylim n delay max_frames title xlabel ylabel gif
       at_linspace w (at_frame_gen x) w' -> x = linspace a b n) /\
  List.length (linspace a b n) = Z.to_nat n /\
  (1 < n -> forall i, (i < Z.to_nat n)%nat ->
     (nth i (linspace a b n) 0 ==
      a + inject_Z (Z.of_nat i) * (b - a) / inject_Z (n - 1))%Q) /\
  (n = 1 -> exists v, linspace a b n = [v] /\ (v == a)%Q).
Proof.
  intros Hn.
  assert (py_linspace a b n w = Return (linspace a b n) w) as Hl.
  { unfold py_linspace. now replace (n <? 0) with false by (symmetry; apply Z.ltb_ge; lia). }
  repeat split.
  - eapply reaches_next; [apply reaches_here|].
    cbn. now rewrite (bind_Return _ _ _ _ _ Hl).
  - intros x w' H. apply reaches_frame_gen in H. cbn in H.
    rewrite Hl in H. now inversion H.
  - apply linspace_length.
  - intros H1 i Hi. now apply linspace_nth.
  - intros ->. apply linspace_one.
Qed.

Lemma C1_domain_sequence_witness :
  1 <= 5 /\
  List.length (linspace 0%Q 1%Q 5) = 5%nat /\
  (nth 3 (linspace 0%Q 1%Q 5) 0%Q == 3 # 4)%Q.
Proof.
  split; [lia|].
  destruct (C1_domain_sequence
              (generator_function "wave" (fun _ => gen_of_list []))
              0%Q 1%Q (-10, 10)%Q 5 20 1000 None None None false fresh)
    as (_ & _ & Hlen & Hnth & _); [lia|].
  split; [exact Hlen|].
  rewrite (Hnth ltac:(lia) 3%nat ltac:(cbn; lia)). reflexivity.
Defined.

(** C1 as stated fails for [n = 1]: over the range (0, 5) the producer is
    handed the one-entry array [0], and 0 is not the upper bound 5. *)
Lemma C1_single_entry_is_start :
  exists x w',
    reaches py (generator_function "wave" (fun _ => gen_of_list []))
      (0, 5)%Q (-10, 10)%Q 1 20 1000 None None None false
      at_linspace fresh (at_frame_gen x) w' /\
    List.length x = 1%nat /\ ~ (nth 0 x 0%Q == 5)%Q.
Proof.
  exists (linspace 0%Q 5%Q 1), fresh. split; [|split].
  - eapply reaches_next; [apply reaches_here | reflexivity].
  - reflexivity.
  - intros H. vm_compute in H. discriminate.
Qed.

(** C2 as stated fails where imagemagick is not installed: with ffmpeg as
    the only encoder, a call with [gif] true returns [None] and has
    written the file named after the producer, but the file was made by
    ffmpeg, the encoder that [save] fell back to. *)
Lemma C2_other_encoder_writes_file :
  exists r w' movie,
    plot_anim py (generator_function "wave" two_frames) (0, 1)%Q (-10, 10)%Q
      5 20 1000 None None None true only_ffmpeg = Return r w' /\
    r = None /\
    lookup "wave.gif" (files w') = Some movie /\
    mv_writer movie = "ffmpeg"%string /\
    mv_writer movie <> "imagemagick"%string.
Proof. eexists _, _, _. vm_compute. repeat split. discriminate. Qed.

(** C2, as amended: a call with [gif] true that returns has returned
    [None], and has written a file named after the producer with [.gif]
    appended; the file was encoded by an installed encoder, which is
    imagemagick whenever imagemagick is installed, at [1000 / delay]
    frames per second. *)
Theorem C2_gif_writes_named_file (fg : FrameGen World) xlim ylim n delay
    max_frames title xlabel ylabel w r w' :
  plot_anim py fg xlim ylim n delay max_frames title xlabel ylabel true w
    = Return r w' ->
  r = None /\
  exists movie rest,
    files w' = ((fg_name fg ++ ".gif")%string, movie) :: rest /\
    lookup (fg_name fg ++ ".gif") (files w') = Some movie /\
    mem (mv_writer movie) (encoders w') = true /\
    (mem "imagemagick" (encoders w') = true ->
     mv_writer movie = "imagemagick"%string) /\
    mv_fps movie = (1000 / inject_Z delay)%Q.
Proof.
  intros H. apply plot_anim_gif_Return in H
    as (g & w1 & ys & wr & _ & _ & _ & _ & Hwr & _ & -> & ->).
  apply writer_for_spec in Hwr as [Hin Hsame].
  split; [reflexivity|]. eexists _, (files w1). cbn.
  rewrite String.eqb_refl. repeat split; assumption.
Qed.

Lemma C2_gif_writes_named_file_witness :
  exists r w',
    plot_anim py (generator_function "wave" two_frames) (0, 1)%Q (-10, 10)%Q
      5 20 1000 None None None true fresh = Return r w' /\
    r = None /\
    exists movie, lookup "wave.gif" (files w') = Some movie /\
                  mv_writer movie = "imagemagick"%string.
Proof.
  eexists _, _. split; [vm_compute; reflexivity|].
  destruct (C2_gif_writes_named_file (generator_function "wave" two_frames)
              (0, 1)%Q (-10, 10)%Q 5 20 1000 None None None fresh _ _
              ltac:(vm_compute; reflexivity))
    as (Hr & movie & rest & _ & Hl & _ & Hw & _).
  split; [exact Hr|]. exists movie. split; [exact Hl | exact (Hw eq_refl)].
Defined.




(** C4: on a line that exists, the initialization step leaves the line
    with empty data and the update step leaves it with the domain array
    and the frame it was given, and both hand back that line as the
    changed artist; and in every call that returns, the animation that
    was produced holds, for the frames [ys] pulled from the producer, the
    picture of [linspace a b n] against each frame in turn: the same
    domain array in every frame. *)
Theorem C4_frame_steps (fg : FrameGen World) xlim ylim n delay max_frames
    title xlabel ylabel gif w r w' :
  plot_anim py fg xlim ylim n delay max_frames title xlabel ylabel gif w
    = Return r w' ->
  (forall line u, line_data line u <> None ->
     exists u1, init_frame py line u = Return [line] u1 /\
                line_data line u1 = Some ([], [])) /\
  (forall line x y u, line_data line u <> None ->
     exists u1, animate py line x y u = Return [line] u1 /\
                line_data line u1 = Some (x, y)) /\
  exists g w1 ys,
    fg_call fg (linspace (fst xlim) (snd xlim) n) w = Return g w1 /\
    pull_all (linspace (fst xlim) (snd xlim) n) g 0 (Z.to_nat max_frames)
      = (ys, None) /\
    line_data (List.length (heap w1), 0%nat) w'
      = Some (line_after (linspace (fst xlim) (snd xlim) n) ys ([], [])) /\
    match r with
    | Some h =>
        mv_frames (html_data h)
        = map (fun y => picture xlim ylim title xlabel ylabel
                          (curve (linspace (fst xlim) (snd xlim) n) y)) ys
    | None =>
        exists movie rest,
          files w' = ((fg_name fg ++ ".gif")%string, movie) :: rest /\
          mv_frames movie
          = map (fun y => picture xlim ylim title xlabel ylabel
                            (curve (linspace (fst xlim) (snd xlim) n) y)) ys
    end.
Proof.
  intros H. split; [|split].
  - intros line u Hu.
    destruct (set_data_line_data line [] [] u Hu) as (u1 & Hs & Hd).
    exists u1. split; [|exact Hd].
    unfold init_frame. cbn [line_set_data py].
    now rewrite (bind_Return _ _ _ _ _ Hs).
  - intros line x y u Hu.
    destruct (set_data_line_data line x y u Hu) as (u1 & Hs & Hd).
    exists u1. split; [|exact Hd].
    unfold animate. cbn [line_set_data py].
    now rewrite (bind_Return _ _ _ _ _ Hs).
  - destruct gif.
    + apply plot_anim_gif_Return in H
        as (g & w1 & ys & wr & _ & _ & Hfg & _ & _ & Hp & -> & ->).
      exists g, w1, ys. repeat split; try assumption.
      * apply (scene_line_data xlim ylim title xlabel ylabel (heap w1)).
      * eexists _, _. split; reflexivity.
    + apply plot_anim_video_Return in H
        as (g & w1 & ys & wr & _ & _ & Hfg & _ & _ & _ & _ & Hp & -> & ->).
      exists g, w1, ys. repeat split; try assumption.
      apply (scene_line_data xlim ylim title xlabel ylabel (heap w1)).
Qed.

Lemma C4_frame_steps_witness :
  exists r w',
    plot_anim py (generator_function "wave" two_frames) (0, 1)%Q (-10, 10)%Q
      5 20 1000 None None None false fresh = Return r w' /\
    line_data (0%nat, 0%nat) w'
      = Some (linspace 0%Q 1%Q 5, [1; 1; 1; 1; 1]%Q).
Proof.
  eexists _, _. split; [vm_compute; reflexivity|].
  destruct (C4_frame_steps (generator_function "wave" two_frames)
              (0, 1)%Q (-10, 10)%Q 5 20 1000 None None None false fresh _ _
              ltac:(vm_compute; reflexivity))
    as (_ & _ & g & w1 & ys & Hfg & Hp & Hd & _).
  vm_compute in Hfg. inversion Hfg; subst.
  vm_compute in Hp. inversion Hp; subst.
  exact Hd.
Defined.







(** C8: a call that returns has produced exactly one artifact: on the
    file path the file and no object ([None]), on the video path the
    object and no file; and the figure it opened is closed: pyplot's
    registry of open figures is as before the call and, as those were all
    objects of the heap, does not hold the call's figure. *)
Theorem C8_one_artifact_figure_closed name (body : ndarray -> generator) xlim
    ylim n delay max_frames title xlabel ylabel gif w r w' :
  plot_anim py (generator_function name body) xlim ylim n delay max_frames
    title xlabel ylabel gif w = Return r w' ->
  ((gif = true /\ r = None /\
    exists movie, files w' = ((name ++ ".gif")%string, movie) :: files w)
   \/
   (gif = false /\ (exists h, r = Some h) /\ files w' = files w)) /\
  pyplot_figs w' = pyplot_figs w /\
  nth_error (heap w') (List.length (heap w)) <> None /\
  (registry_ok w = true -> ~ In (List.length (heap w)) (pyplot_figs w')).
Proof.
  intros H.
  assert (pyplot_figs w' = pyplot_figs w /\
          nth_error (heap w') (List.length (heap w)) <> None /\
          ((gif = true /\ r = None /\
            exists movie, files w' = ((name ++ ".gif")%string, movie) :: files w)
           \/
           (gif = false /\ (exists h, r = Some h) /\ files w' = files w)))
    as (Hreg & Hobj & Hart).
  { destruct gif.
    - apply plot_anim_gif_Return in H
        as (g & w1 & ys & wr & _ & _ & Hfg & _ & _ & _ & -> & ->).
      cbn in Hfg. inversion Hfg; subst. cbn.
      rewrite nth_error_app_last. repeat split; [discriminate|].
      left. repeat split. eexists. reflexivity.
    - apply plot_anim_video_Return in H
        as (g & w1 & ys & wr & _ & _ & Hfg & _ & _ & _ & _ & _ & -> & ->).
      cbn in Hfg. inversion Hfg; subst. cbn.
      rewrite nth_error_app_last. repeat split; [discriminate|].
      right. repeat split. eexists. reflexivity. }
  repeat split; try assumption.
  intros Hok Hin. rewrite Hreg in Hin. unfold registry_ok in Hok.
  rewrite forallb_forall in Hok. apply Hok in Hin.
  apply Nat.ltb_lt in Hin. lia.
Qed.

Lemma C8_one_artifact_figure_closed_witness :
  exists r w',
    plot_anim py (generator_function "wave" two_frames) (0, 1)%Q (-10, 10)%Q
      5 20 1000 None None None true fresh = Return r w' /\
    r = None /\ pyplot_figs w' = [] /\ List.length (files w') = 1%nat.
Proof.
  eexists _, _. split; [vm_compute; reflexivity|].
  destruct (C8_one_artifact_figure_closed "wave" two_frames (0, 1)%Q
              (-10, 10)%Q 5 20 1000 None None None true fresh _ _
              ltac:(vm_compute; reflexivity))
    as ([(_ & Hr & m & Hf)|(Hg & _)] & Hreg & _); [|discriminate].
  split; [exact Hr|]. split; [exact Hreg|]. now rewrite Hf.
Defined.

(** C9 as stated fails: matplotlib's global setting [animation.html] is
    ["none"] before a call on the video path and ["html5"] after it. *)
Lemma C9_rc_setting_persists :
  exists r w',
    plot_anim py (generator_function "wave" two_frames) (0, 1)%Q (-10, 10)%Q
      5 20 1000 None None None false fresh = Return r w' /\
    lookup "animation.html" (rcParams fresh) = Some "none"%string /\
    lookup "animation.html" (rcParams w') = Some "html5"%string.
Proof. eexists _, _. vm_compute. repeat split. Qed.

(** C9, as amended: a call that returns leaves the registry of open
    figures and the installed encoders as they were; what it leaves
    behind is, on the file path, the written file, with [rcParams]
    untouched; on the video path, the setting [animation.html = html5],
    every other setting and the files untouched. *)
Theorem C9_what_persists name (body : ndarray -> generator) xlim ylim n delay
    max_frames title xlabel ylabel gif w r w' :
  plot_anim py (generator_function name body) xlim ylim n delay max_frames
    title xlabel ylabel gif w = Return r w' ->
  pyplot_figs w' = pyplot_figs w /\
  encoders w' = encoders w /\
  (gif = true ->
   rcParams w' = rcParams w /\
   exists movie, files w' = ((name ++ ".gif")%string, movie) :: files w) /\
  (gif = false ->
   files w' = files w /\
   lookup "animation.html" (rcParams w') = Some "html5"%string /\
   forall k, k <> "animation.html"%string ->
             lookup k (rcParams w') = lookup k (rcParams w)).
Proof.
  intros H. destruct gif.
  - apply plot_anim_gif_Return in H
      as (g & w1 & ys & wr & _ & _ & Hfg & _ & _ & _ & -> & ->).
    cbn in Hfg. inversion Hfg; subst. cbn. repeat split; try discriminate.
    eexists. reflexivity.
  - apply plot_anim_video_Return in H
      as (g & w1 & ys & wr & _ & _ & Hfg & Hhtml & _ & _ & _ & _ & -> & ->).
    cbn in Hfg. inversion Hfg; subst. cbn. repeat split; try discriminate.
    + now apply lookup_assign_same.
    + intros k Hk. apply lookup_assign_other. congruence.
Qed.

Lemma C9_what_persists_witness :
  exists r w',
    plot_anim py (generator_function "wave" two_frames) (0, 1)%Q (-10, 10)%Q
      5 20 1000 None None None false fresh = Return r w' /\
    pyplot_figs w' = pyplot_figs fresh /\ files w' = files fresh /\
    lookup "animation.writer" (rcParams w') = Some "ffmpeg"%string.
Proof.
  eexists _, _. split; [vm_compute; reflexivity|].
  destruct (C9_what_persists "wave" two_frames (0, 1)%Q (-10, 10)%Q 5 20 1000
              None None None false fresh _ _ ltac:(vm_compute; reflexivity))
    as (Hreg & _ & _ & Hvideo).
  destruct (Hvideo eq_refl) as (Hfiles & _ & Hother).
  split; [exact Hreg|]. split; [exact Hfiles|].
  now rewrite (Hother "animation.writer"%string ltac:(discriminate)).
Defined.

Lemma if_truthy_applied {W} (s : option string) (f : string -> M W unit) :
  if_truthy s f = if_truthy (applied s) f.
Proof. destruct s as [[|c t]|]; reflexivity. Qed.

(** C10: a call with any title, x label and y label is the call in which
    each of them that is falsy was omitted ([None]), for every backend
    and in every state, in outcome and in effect; the empty string is
    falsy, a string with a first character is applied as it is. *)
Theorem C10_falsy_decoration_is_omitted {W} (be : Backend W)
    (frame_gen : FrameGen W) xlim ylim n delay max_frames title xlabel ylabel
    gif :
  plot_anim be frame_gen xlim ylim n delay max_frames title xlabel ylabel gif
  = plot_anim be frame_gen xlim ylim n delay max_frames
      (applied title) (applied xlabel) (applied ylabel) gif /\
  applied (Some EmptyString) = None /\
  applied None = None /\
  (forall c t, applied (Some (String c t)) = Some (String c t)).
Proof.
  split; [|repeat split].
  unfold plot_anim.
  now rewrite (if_truthy_applied title), (if_truthy_applied xlabel),
    (if_truthy_applied ylabel).
Qed.

(** * Further properties of [plot_anim] *)

(** A negative number of domain points: the sequence construction raises
    its ValueError, and the call ends there: the producer has not been
    called and the state of the process is untouched (no figure was
    made). *)
Theorem negative_sample_count_raises (fg : FrameGen World) xlim ylim n delay
    max_frames title xlabel ylabel gif w :
  n < 0 ->
  plot_anim py fg xlim ylim n delay max_frames title xlabel ylabel gif w
  = Raise (ValueError "Number of samples must be non-negative.") w.
Proof.
  intros Hn. rewrite plot_anim_py.
  now replace (n <? 0) with true by (symmetry; now apply Z.ltb_lt).
Qed.

Lemma negative_sample_count_raises_witness :
  -1 < 0 /\
  plot_anim py (generator_function "wave" two_frames) (0, 1)%Q (-10, 10)%Q
    (-1) 20 1000 None None None true fresh
  = Raise (ValueError "Number of samples must be non-negative.") fresh.
Proof.
  split; [lia|].
  apply (negative_sample_count_raises (generator_function "wave" two_frames)).
  lia.
Defined.

(** [max_frames] caps the animation: two generator functions whose
    generators agree on their first [max_frames] items give the same
    outcome of the call, result or exception and state alike, so that
    nothing beyond those items is pulled or drawn; and the animation of
    a call that returns has at most [max_frames] frames. *)
Theorem frames_capped_at_max_frames name (body body' : ndarray -> generator)
    xlim ylim n delay max_frames title xlabel ylabel gif w :
  (forall i, (i < Z.to_nat max_frames)%nat ->
     body (linspace (fst xlim) (snd xlim) n) i
     = body' (linspace (fst xlim) (snd xlim) n) i) ->
  plot_anim py (generator_function name body) xlim ylim n delay max_frames
    title xlabel ylabel gif w
  = plot_anim py (generator_function name body') xlim ylim n delay max_frames
      title xlabel ylabel gif w /\
  (forall r w' movie,
     plot_anim py (generator_function name body) xlim ylim n delay max_frames
       title xlabel ylabel gif w = Return r w' ->
     produced name r w' = Some movie ->
     (List.length (mv_frames movie) <= Z.to_nat max_frames)%nat).
Proof.
  intros H. split.
  - rewrite !plot_anim_emitted. destruct (n <? 0); [reflexivity|].
    cbn [fg_call generator_function fg_name]. unfold ret.
    now rewrite (pulled_ext _ _ _ _ H).
  - intros r w' movie Hcall Hprod.
    assert (exists g ys,
              pull_all (linspace (fst xlim) (snd xlim) n) g 0
                (Z.to_nat max_frames) = (ys, None) /\
              mv_frames movie
              = frames_of xlim ylim title xlabel ylabel
                  (linspace (fst xlim) (snd xlim) n) ys)
      as (g & ys & Hp & ->).
    { destruct gif.
      - apply plot_anim_gif_Return in Hcall
          as (g & w1 & ys & wr & _ & _ & _ & _ & _ & Hp & -> & ->).
        cbn in Hprod. rewrite String.eqb_refl in Hprod.
        inversion Hprod; subst. now exists g, ys.
      - apply plot_anim_video_Return in Hcall
          as (g & w1 & ys & wr & _ & _ & _ & _ & _ & _ & _ & Hp & -> & ->).
        cbn in Hprod. inversion Hprod; subst. now exists g, ys. }
    rewrite frames_of_length.
    pose proof (pull_all_length (linspace (fst xlim) (snd xlim) n) g
                  (Z.to_nat max_frames) 0) as Hlen.
    now rewrite Hp in Hlen.
Qed.

Lemma frames_capped_at_max_frames_witness :
  plot_anim py
    (generator_function "wave" (fun x => gen_of_list [x; x; [3; 4]%Q]))
    (0, 1)%Q (-10, 10)%Q 5 20 2 None None None false fresh
  = plot_anim py (generator_function "wave" (fun x => gen_of_list [x; x]))
      (0, 1)%Q (-10, 10)%Q 5 20 2 None None None false fresh.
Proof.
  apply (frames_capped_at_max_frames "wave"
           (fun x => gen_of_list [x; x; [3; 4]%Q])
           (fun x => gen_of_list [x; x])).
  intros [|[|i]] Hi; [reflexivity | reflexivity | cbn in Hi; lia].
Defined.

(** The zoom is fixed: when both ranges are regular (of a magnitude that
    is not tiny and wider than [1e-15] times that magnitude, so that the
    plotting surface leaves them as they are), every frame of the
    animation that a returning call produced shows exactly the ranges
    [xlim] and [ylim], the decorations that were applied, and one
    curve. *)
Theorem every_frame_has_the_fixed_view (fg : FrameGen World) xlim ylim n delay
    max_frames title xlabel ylabel gif w r w' movie :
  plot_anim py fg xlim ylim n delay max_frames title xlabel ylabel gif w
    = Return r w' ->
  produced (fg_name fg) r w' = Some movie ->
  regular xlim = true ->
  regular ylim = true ->
  Forall (fun im =>
            im_xlim im = xlim /\ im_ylim im = ylim /\
            im_title im = applied title /\ im_xlabel im = applied xlabel /\
            im_ylabel im = applied ylabel /\
            List.length (im_curves im) = 1%nat)
    (mv_frames movie).
Proof.
  intros H Hprod Hx Hy.
  assert (exists ys, mv_frames movie
                     = frames_of xlim ylim title xlabel ylabel
                         (linspace (fst xlim) (snd xlim) n) ys) as [ys ->].
  { destruct gif.
    - apply plot_anim_gif_Return in H
        as (g & w1 & ys & wr & _ & _ & _ & _ & _ & _ & -> & ->).
      cbn in Hprod. rewrite String.eqb_refl in Hprod. inversion Hprod; subst.
      now exists ys.
    - apply plot_anim_video_Return in H
        as (g & w1 & ys & wr & _ & _ & _ & _ & _ & _ & _ & _ & -> & ->).
      cbn in Hprod. inversion Hprod; subst. now exists ys. }
  unfold frames_of. apply Forall_forall. intros im Him.
  apply in_map_iff in Him as (y & <- & _). cbn.
  rewrite !regular_view_limits by assumption. repeat split.
Qed.

Lemma every_frame_has_the_fixed_view_witness :
  exists movie,
    List.length (mv_frames movie) = 2%nat /\
    Forall (fun im => im_xlim im = (0, 1)%Q /\ im_ylim im = (-10, 10)%Q /\
                      im_title im = Some "t"%string)
      (mv_frames movie).
Proof.
  eexists. split;
    [| eapply Forall_impl;
       [| apply (every_frame_has_the_fixed_view
                   (generator_function "wave" two_frames) (0, 1)%Q (-10, 10)%Q
                   5 20 1000 (Some "t"%string) (Some ""%string) None true fresh
                   _ _ _ ltac:(vm_compute; reflexivity)
                   ltac:(vm_compute; reflexivity)
                   ltac:(vm_compute; reflexivity)
                   ltac:(vm_compute; reflexivity)) ];
       intros im (Hx & Hy & Ht & _); repeat split; assumption ].
  reflexivity.
Defined.

(** Whatever the libraries do, the flag alone decides the kind of result:
    a call that returns gives [None] with [gif] true and an object with
    [gif] false. *)
Theorem result_kind_follows_gif {W} (be : Backend W) (frame_gen : FrameGen W)
    xlim ylim n delay max_frames title xlabel ylabel gif w r w' :
  plot_anim be frame_gen xlim ylim n delay max_frames title xlabel ylabel gif w
    = Return r w' ->
  if gif then r = None else exists h, r = Some h.
Proof.
  unfold plot_anim. intros H.
  do 2 (apply bind_Return_inv in H as (? & ? & _ & H)).
  apply bind_Return_inv in H as ([fig ax] & ? & _ & H).
  do 8 (apply bind_Return_inv in H as (? & ? & _ & H)).
  destruct gif.
  - apply bind_Return_inv in H as (? & ? & _ & H). now inversion H.
  - do 3 (apply bind_Return_inv in H as (? & ? & _ & H)).
    inversion H. eauto.
Qed.

Lemma result_kind_follows_gif_witness :
  exists r w',
    plot_anim py (generator_function "wave" echo) (0, 5)%Q (-10, 10)%Q
      4 20 1000 None None None false fresh = Return r w' /\
    exists h, r = Some h.
Proof.
  eexists _, _. split; [vm_compute; reflexivity|].
  exact (result_kind_follows_gif py (generator_function "wave" echo)
           (0, 5)%Q (-10, 10)%Q 4 20 1000 None None None false fresh _ _
           ltac:(vm_compute; reflexivity)).
Defined.

(** A call can be repeated: in the state a returning call left behind,
    the same call returns again, with the same result. *)
Theorem call_is_repeatable name (body : ndarray -> generator) xlim ylim n delay
    max_frames title xlabel ylabel gif w r w' :
  plot_anim py (generator_function name body) xlim ylim n delay max_frames
    title xlabel ylabel gif w = Return r w' ->
  exists w'',
    plot_anim py (generator_function name body) xlim ylim n delay max_frames
      title xlabel ylabel gif w' = Return r w''.
Proof.
  intros H. destruct gif.
  - apply plot_anim_gif_Return in H
      as (g & w1 & ys & wr & Hn & Hmf & Hfg & Hd & Hwr & Hp & -> & ->).
    cbn in Hfg. inversion Hfg; subst.
    eexists. apply plot_anim_gif_Return.
    eexists _, _, ys, wr. repeat split; try assumption.
  - apply plot_anim_video_Return in H
      as (g & w1 & ys & wr & Hn & Hmf & Hfg & Hhtml & Hw & Hm & Hd & Hp & -> & ->).
    cbn in Hfg. inversion Hfg; subst.
    eexists. apply plot_anim_video_Return.
    eexists _, _, ys, wr. repeat split; try assumption.
    all: cbn.
    all: first [ rewrite (lookup_assign_same _ _ _ Hhtml); discriminate
               | now rewrite lookup_assign_other by discriminate
               | reflexivity ].
Qed.

Lemma call_is_repeatable_witness :
  exists r w' w'',
    plot_anim py (generator_function "wave" two_frames) (0, 1)%Q (-10, 10)%Q
      5 20 1000 None None None false fresh = Return r w' /\
    plot_anim py (generator_function "wave" two_frames) (0, 1)%Q (-10, 10)%Q
      5 20 1000 None None None false w' = Return r w''.
Proof.
  eexists _, _.
  destruct (call_is_repeatable "wave" two_frames (0, 1)%Q (-10, 10)%Q 5 20
              1000 None None None false fresh _ _
              ltac:(vm_compute; reflexivity)) as (w'' & H).
  exists w''. split; [vm_compute; reflexivity | exact H].
Defined.

(** A call that raises leaves no figure open: whatever the exception and
    wherever it came from, pyplot's registry of open figures is as it was
    before the call.  The exception came from the sequence construction,
    before the figure was made, or from the encoding, after
    [plt.close()]. *)
Theorem failed_call_leaves_no_open_figure name (body : ndarray -> generator)
    xlim ylim n delay max_frames title xlabel ylabel gif w e w' :
  plot_anim py (generator_function name body) xlim ylim n delay max_frames
    title xlabel ylabel gif w = Raise e w' ->
  pyplot_figs w' = pyplot_figs w.
Proof.
  rewrite plot_anim_emitted. destruct (n <? 0).
  - intros E. now inversion E.
  - cbn [fg_call generator_function fg_name]. unfold ret, emitted. cbv zeta.
    destruct gif;
      repeat match goal with
             | |- context [if ?c then _ else _] => destruct c
             | |- context [match ?c with _ => _ end] => destruct c
             end;
      intros E; inversion E; reflexivity.
Qed.

Lemma failed_call_leaves_no_open_figure_witness :
  exists e w',
    plot_anim py
      (generator_function "wave" (fun x => gen_of_list [x; [3; 4]%Q]))
      (0, 1)%Q (-10, 10)%Q 5 20 1000 None None None true fresh = Raise e w' /\
    pyplot_figs w' = pyplot_figs fresh.
Proof.
  eexists _, _. split; [vm_compute; reflexivity|].
  exact (failed_call_leaves_no_open_figure "wave"
           (fun x => gen_of_list [x; [3; 4]%Q])
           (0, 1)%Q (-10, 10)%Q 5 20 1000 None None None true fresh _ _
           ltac:(vm_compute; reflexivity)).
Defined.

(** The figure is closed before anything is encoded.  For every backend:
    when a run has reached one of the calls that encode the animation
    ([save], [rc], [to_html5_video], [HTML]) or has returned, then on the
    way [plt.close()] was called for the animation of the call and
    returned, and the run went on from the state it left. *)
Theorem figure_closed_before_encoding {W} (be : Backend W)
    (frame_gen : FrameGen W) xlim ylim n delay max_frames title xlabel ylabel
    gif w p w' :
  reaches be frame_gen xlim ylim n delay max_frames title xlabel ylabel gif
    at_linspace w p w' ->
  after_close p = true ->
  exists anim w0 w1,
    reaches be frame_gen xlim ylim n delay max_frames title xlabel ylabel gif
      at_linspace w (at_close anim) w0 /\
    plt_close be w0 = Return tt w1 /\
    reaches be frame_gen xlim ylim n delay max_frames title xlabel ylabel gif
      (if gif then at_save anim else at_rc anim) w1 p w'.
Proof.
  intros H. remember at_linspace as p0 eqn:Hp0.
  induction H as [p w|p w p1 w1 p2 w2 H IH Hs]; intros Hafter.
  - subst. discriminate.
  - specialize (IH Hp0). subst p.
    destruct (after_close p1) eqn:Hp1.
    + destruct (IH eq_refl) as (anim & w0 & w3 & H1 & H2 & H3).
      exists anim, w0, w3. repeat split; try assumption.
      eapply reaches_next; [exact H3 | exact Hs].
    + clear IH.
      destruct p1; try discriminate; cbn [step] in Hs;
        apply bind_Return_inv in Hs as (a & u & Ha & Hk);
        try destruct a; unfold ret in Hk; inversion Hk; subst;
        try discriminate.
      exists anim, w1, w2. repeat split; try assumption. apply reaches_here.
Qed.

Lemma figure_closed_before_encoding_witness :
  exists anim w0 w1,
    reaches py (generator_function "wave" two_frames) (0, 1)%Q (-10, 10)%Q
      5 20 1000 None None None true at_linspace fresh (at_close anim) w0 /\
    plt_close py w0 = Return tt w1.
Proof.
  eassert (reaches py (generator_function "wave" two_frames) (0, 1)%Q
             (-10, 10)%Q 5 20 1000 None None None true at_linspace fresh
             (returned None) _) as Hr.
  { apply plot_anim_returns_iff. vm_compute. reflexivity. }
  destruct (figure_closed_before_encoding py
              (generator_function "wave" two_frames) (0, 1)%Q (-10, 10)%Q
              5 20 1000 None None None true fresh (returned None) _ Hr eq_refl)
    as (anim & w0 & w1 & H1 & H2 & _).
  now exists anim, w0, w1.
Defined.
